(** * WalletSynchronizer: block fetching and transaction scanning

    A shallow embedding of [src/lib/WalletSynchronizer.ts] and the proofs of
    the properties its specification states about it.

    Conventions of the embedding.
    - A TypeScript [number] holding a height, a timestamp or an amount in
      atomic units is an integer, a [Z].  Heights and timestamps are only
      compared and printed.  Amounts are added and subtracted: [+] and [-]
      on [number] give the exact result rounded to the nearest binary64
      value ([numberAdd], [numberSub]), which is the exact result as long
      as its magnitude is at most 2^53.
    - [string] is [String.string]; a [Map<string, number>] is a
      [gmap string Z]; an array is a [list], [push] appends at the end.
    - The two collaborators of the class, the daemon ([IDaemon]) and the
      key-management component ([SubWallets]), are not part of the
      synchronizer's own state.  The daemon is a record of the answers it
      gives; the key-image query of [SubWallets] is a function; the
      notification sent to [SubWallets] is an event of the trace.  Both
      collaborators are attached, as the types of the fields [daemon] and
      [subWallets] say, and their methods return normally; the one call
      that may fail is the asynchronous [getWalletSyncData].
    - Methods that assign to fields of [this] run in a small monad of state,
      trace and exceptions, [Eff]. *)

From Stdlib Require Import ZArith String List Lia.
From stdpp Require Import base option list strings gmap fin_maps pretty.

Local Open Scope Z_scope.

(** ** Data model *)

Module Types.

(** Modelled from the spec: [./Types] is not in src/.  The records below
    carry the fields the source reads ([blockHeight], [amount], [keyImage],
    [keyInputs], [hash], [paymentID], [unlockTime]) and the ones the data
    model of the specification names. *)
Record KeyInput := mkKeyInput {
  ki_amount : Z;
  keyImage : string
}.

Record KeyOutput := mkKeyOutput {
  ko_key : string;
  ko_amount : Z
}.

Record RawCoinbaseTransaction := mkRawCoinbaseTransaction {
  keyOutputs : list KeyOutput;
  cb_hash : string;
  transactionPublicKey : string;
  cb_unlockTime : Z
}.

(** [RawTransaction extends RawCoinbaseTransaction] *)
Record RawTransaction := mkRawTransaction {
  base :> RawCoinbaseTransaction;
  paymentID : string;
  keyInputs : list KeyInput
}.

Record Block := mkBlock {
  coinbaseTransaction : option RawCoinbaseTransaction;
  transactions : list RawTransaction;
  blockHeight : Z;
  blockHash : string;
  blockTimestamp : Z
}.

(** [new Transaction(transfers, hash, fee, timestamp, blockHeight,
    paymentID, unlockTime, isCoinbaseTransaction)] *)
Record Transaction := mkTransaction {
  tx_transfers : gmap string Z;
  tx_hash : string;
  fee : Z;
  timestamp : Z;
  tx_blockHeight : Z;
  tx_paymentID : string;
  tx_unlockTime : Z;
  isCoinbaseTransaction : bool
}.

Record TransactionData := mkTransactionData {
  transactionsToAdd : list Transaction;
  keyImagesToMarkSpent : list (string * string)
}.

End Types.
Export Types.

(** ** The checkpoint tracker *)

Module SynchronizationStatus.

(** Modelled from the spec: [./SynchronizationStatus] is not in src/.  The
    tracker holds the last synced height and the window of recent
    (height, hash) checkpoints, most recent first; its serialized form is
    "current height + checkpoint window". *)
Record t := mk {
  currentHeight : Z;
  window : list (Z * string)
}.

(** Modelled from the spec: the window is capped at a fixed size, "e.g. 100
    entries". *)
Definition windowSize : nat := 100.

(** Modelled from the spec: [new SynchronizationStatus()], nothing synced:
    height 0 and an empty window. *)
Definition new : t := mk 0 [].

(** Modelled from the spec: [currentHeight()]. *)
Definition getHeight (s : t) : Z := currentHeight s.

(** Modelled from the spec: [recentHashes()], the hashes of the window,
    most recent first. *)
Definition getBlockHashCheckpoints (s : t) : list string := map snd (window s).

(** Modelled from the spec: [record(height, hash)] puts a new checkpoint in
    front and evicts the oldest when the window is full. *)
Definition storeBlockHash (blockHeight : Z) (blockHash : string) (s : t) : t :=
  mk blockHeight (take windowSize ((blockHeight, blockHash) :: window s)).

(** Modelled from the spec: the durable representation of the tracker and
    the two conversions. *)
Record JSON := mkJSON {
  json_currentHeight : Z;
  json_window : list (Z * string)
}.

Definition toJSON (s : t) : JSON := mkJSON (currentHeight s) (window s).

Definition fromJSON (j : JSON) : t := mk (json_currentHeight j) (json_window j).

End SynchronizationStatus.

(** ** Collaborators *)

(** What [await daemon.getWalletSyncData(...)] does: it resolves with a
    batch of blocks or rejects with an error. *)
Inductive SyncReply :=
  | Resolves (blocks : list Block)
  | Rejects (err : string).

(** [IDaemon], as far as the synchronizer consumes it. *)
Record IDaemon := mkDaemon {
  getLocalDaemonBlockCount : Z;
  getWalletSyncData : list string -> Z -> Z -> SyncReply
}.

(** Calls that leave the synchronizer. *)
Inductive Event :=
  | EvGetLocalDaemonBlockCount (result : Z)
  | EvGetWalletSyncData (blockHashCheckpoints : list string)
      (startHeight startTimestamp : Z) (reply : SyncReply)
  | EvConvertSyncTimestampToHeight (timestamp height : Z).

(** ** Synchronizer state *)

Record WalletSynchronizer := mkWalletSynchronizer {
  startTimestamp : Z;
  startHeight : Z;
  privateViewKey : string;
  synchronizationStatus : SynchronizationStatus.t
}.

(** [JsonSerialization.WalletSynchronizerJSON] *)
Record WalletSynchronizerJSON := mkWalletSynchronizerJSON {
  json_privateViewKey : string;
  json_startHeight : Z;
  json_startTimestamp : Z;
  transactionSynchronizerStatus : SynchronizationStatus.JSON
}.

(** [constructor(daemon, startTimestamp, startHeight, privateViewKey)]; the
    field initializer gives a fresh [SynchronizationStatus]. *)
Definition constructor (startTimestamp startHeight : Z) (privateViewKey : string)
  : WalletSynchronizer :=
  mkWalletSynchronizer startTimestamp startHeight privateViewKey
    SynchronizationStatus.new.

(** [static fromJSON(json)].  [Object.assign] also copies the property
    [transactionSynchronizerStatus] of [json] onto the new object; no method
    reads it, so it is not a field here. *)
Definition fromJSON (json : WalletSynchronizerJSON) : WalletSynchronizer :=
  {| privateViewKey := json_privateViewKey json;
     startHeight := json_startHeight json;
     startTimestamp := json_startTimestamp json;
     synchronizationStatus :=
       SynchronizationStatus.fromJSON (transactionSynchronizerStatus json) |}.

Definition toJSON (this : WalletSynchronizer) : WalletSynchronizerJSON :=
  {| json_privateViewKey := privateViewKey this;
     json_startHeight := startHeight this;
     json_startTimestamp := startTimestamp this;
     transactionSynchronizerStatus :=
       SynchronizationStatus.toJSON (synchronizationStatus this) |}.

Definition getHeight (this : WalletSynchronizer) : Z :=
  SynchronizationStatus.getHeight (synchronizationStatus this).

Definition storeBlockHash (blockHeight : Z) (blockHash : string)
    (this : WalletSynchronizer) : WalletSynchronizer :=
  {| startTimestamp := startTimestamp this;
     startHeight := startHeight this;
     privateViewKey := privateViewKey this;
     synchronizationStatus :=
       SynchronizationStatus.storeBlockHash blockHeight blockHash
         (synchronizationStatus this) |}.

(** ** The effect monad of the methods that mutate [this] *)

Module Eff.

Record World := mkWorld {
  this : WalletSynchronizer;
  trace : list Event
}.

(** How a call ends: it returns a value, or it throws ([async]: the promise
    is rejected) with the message of the [Error]. *)
Inductive Completion (A : Type) :=
  | Returns (a : A)
  | Throws (message : string).
Arguments Returns {A} a.
Arguments Throws {A} message.

Definition M (A : Type) : Type := World -> Completion A * World.

Definition ret {A} (a : A) : M A := fun w => (Returns a, w).

Definition bind {A B} (m : M A) (k : A -> M B) : M B :=
  fun w =>
    match m w with
    | (Returns a, w') => k a w'
    | (Throws msg, w') => (Throws msg, w')
    end.

Definition throw {A} (message : string) : M A := fun w => (Throws message, w).

(** Read a field of [this]. *)
Definition read {A} (field : WalletSynchronizer -> A) : M A :=
  fun w => (Returns (field (this w)), w).

(** [this.startTimestamp = v] *)
Definition assignStartTimestamp (v : Z) : M unit :=
  fun w =>
    (Returns tt,
     mkWorld {| startTimestamp := v;
                startHeight := startHeight (this w);
                privateViewKey := privateViewKey (this w);
                synchronizationStatus := synchronizationStatus (this w) |}
             (trace w)).

(** [this.startHeight = v] *)
Definition assignStartHeight (v : Z) : M unit :=
  fun w =>
    (Returns tt,
     mkWorld {| startTimestamp := startTimestamp (this w);
                startHeight := v;
                privateViewKey := privateViewKey (this w);
                synchronizationStatus := synchronizationStatus (this w) |}
             (trace w)).

(** A call to a collaborator is recorded at the end of the trace. *)
Definition emit (e : Event) : M unit :=
  fun w => (Returns tt, mkWorld (this w) (trace w ++ [e])).

Definition when (b : bool) (m : M unit) : M unit := if b then m else ret tt.

End Eff.

Declare Scope eff_scope.
Delimit Scope eff_scope with eff.
Notation "x <- m ;; k" := (Eff.bind m (fun x => k))
  (at level 100, m at next level, right associativity) : eff_scope.
Notation "m ;;; k" := (Eff.bind m (fun _ => k))
  (at level 100, right associativity) : eff_scope.

(** ** getBlocks *)

Section GetBlocks.

Import Eff.
Local Open Scope eff_scope.

(** String concatenation of a [number]: decimal digits, with a leading
    minus sign for a negative one. *)
Definition numberToString (n : Z) : string := pretty n.

Definition newline : string := String (Ascii.ascii_of_nat 10) EmptyString.

Definition unexpectedHeightMessage (expected actual : Z) : string :=
  "Received unexpected block height from daemon. " +:+
  "Expected " +:+ numberToString expected +:+ ", got " +:+
  numberToString actual +:+ newline.

(** [this.daemon.getLocalDaemonBlockCount()] *)
Definition daemon_getLocalDaemonBlockCount (daemon : IDaemon) : M Z :=
  emit (EvGetLocalDaemonBlockCount (getLocalDaemonBlockCount daemon));;;
  ret (getLocalDaemonBlockCount daemon).

(** [await this.daemon.getWalletSyncData(checkpoints, height, timestamp)] *)
Definition daemon_getWalletSyncData (daemon : IDaemon)
    (blockCheckpoints : list string) (height timestamp : Z) : M SyncReply :=
  emit (EvGetWalletSyncData blockCheckpoints height timestamp
          (getWalletSyncData daemon blockCheckpoints height timestamp));;;
  ret (getWalletSyncData daemon blockCheckpoints height timestamp).

(** [this.subWallets.convertSyncTimestampToHeight(timestamp, height)] *)
Definition subWallets_convertSyncTimestampToHeight (timestamp height : Z)
  : M unit :=
  emit (EvConvertSyncTimestampToHeight timestamp height).

(** [_.isEmpty] on an array *)
Definition isEmpty {A} (l : list A) : bool :=
  match l with [] => true | _ :: _ => false end.

Definition getBlocks (daemon : IDaemon) : M (list Block) :=
  localDaemonBlockCount <- daemon_getLocalDaemonBlockCount daemon;;
  walletBlockCount <- read getHeight;;
  if (localDaemonBlockCount <? walletBlockCount)%Z then ret []
  else
    (* The block hashes to try begin syncing from *)
    blockCheckpoints <-
      read (fun this =>
        SynchronizationStatus.getBlockHashCheckpoints
          (synchronizationStatus this));;
    height <- read startHeight;;
    timestamp <- read startTimestamp;;
    reply <- daemon_getWalletSyncData daemon blockCheckpoints height timestamp;;
    match reply with
    | Rejects _ => ret []
    | Resolves blocks =>
      match blocks with
      | [] => ret []
      | blocks_0 :: _ =>
        (* Timestamp is transient and can change - block height is constant. *)
        timestamp <- read startTimestamp;;
        when (negb (timestamp =? 0)%Z) (
          assignStartTimestamp 0;;;
          assignStartHeight (blockHeight blocks_0);;;
          timestamp' <- read startTimestamp;;
          height' <- read startHeight;;
          subWallets_convertSyncTimestampToHeight timestamp' height');;;
        (* If checkpoints are empty, this is the first sync request. *)
        (if isEmpty blockCheckpoints then
           let actualHeight := blockHeight blocks_0 in
           (* Only check if a timestamp isn't given *)
           timestamp <- read startTimestamp;;
           if (timestamp =? 0)%Z then
             (* The height we expect to get back from the daemon *)
             height <- read startHeight;;
             if negb (actualHeight =? height)%Z then
               throw (unexpectedHeightMessage height actualHeight)
             else ret tt
           else ret tt
         else ret tt);;;
        ret blocks
      end
    end.

(** Running a call on a synchronizer, from an empty trace. *)
Definition call {A} (m : M A) (this : WalletSynchronizer)
  : Completion A * World := m (mkWorld this []).

Definition completion {A} (r : Completion A * World) : Completion A := fst r.
Definition after {A} (r : Completion A * World) : WalletSynchronizer :=
  Eff.this (snd r).
Definition calls {A} (r : Completion A * World) : list Event :=
  Eff.trace (snd r).

End GetBlocks.

(** ** Arithmetic of [number] *)

(** The integers up to which every integer is a [number]. *)
Definition maxExact : Z := 2 ^ 53.

(** The [number] nearest to the integer [n].  A binary64 value has 53
    significant bits: up to magnitude 2^53 every integer is one; beyond,
    the values are the multiples of [ulp], the power of two that leaves 53
    bits, and [n] goes to the nearest multiple, to the even one on a tie.
    (Magnitudes from 2^1024 on, which round to [Infinity], are outside the
    integers modelled.) *)
Definition roundToNumber (n : Z) : Z :=
  let m := Z.abs n in
  if m <=? maxExact then n
  else
    let ulp := 2 ^ (Z.log2 m - 52) in
    let q := m / ulp in
    let r := m mod ulp in
    let q' :=
      if 2 * r <? ulp then q
      else if ulp <? 2 * r then q + 1
      else if Z.even q then q else q + 1 in
    Z.sgn n * (q' * ulp).

(** [a + b] and [a - b] on [number]s that hold integers. *)
Definition numberAdd (a b : Z) : Z := roundToNumber (a + b).
Definition numberSub (a b : Z) : Z := roundToNumber (a - b).

(** ** Transaction scanning *)

Section Scanner.

(** [this.subWallets.getKeyImageOwner(keyImage)]: a query that answers
    [(found, publicSpendKey)]. *)
Variable getKeyImageOwner : string -> bool * string.

(** [transfers.get(key) || 0]: [undefined] and [0] both give [0]. *)
Definition getOrZero (transfers : gmap string Z) (key : string) : Z :=
  match transfers !! key with
  | Some amount => if (amount =? 0)%Z then 0%Z else amount
  | None => 0%Z
  end.

(** [_.isEmpty] on a [Map]: its [size] is zero. *)
Definition isEmptyMap (transfers : gmap string Z) : bool :=
  Nat.eqb (size transfers) 0.

(** [txData.keyImagesToMarkSpent.push(entry)] *)
Definition pushKeyImageToMarkSpent (entry : string * string)
    (txData : TransactionData) : TransactionData :=
  {| transactionsToAdd := transactionsToAdd txData;
     keyImagesToMarkSpent := keyImagesToMarkSpent txData ++ [entry] |}.

(** [txData.transactionsToAdd.push(tx)] *)
Definition pushTransactionToAdd (tx : Transaction)
    (txData : TransactionData) : TransactionData :=
  {| transactionsToAdd := transactionsToAdd txData ++ [tx];
     keyImagesToMarkSpent := keyImagesToMarkSpent txData |}.

(** The body of the loop [for (const input of keyInputs)], on the variables
    it updates. *)
Definition processTransactionInputs_body
    (vars : Z * gmap string Z * TransactionData) (input : KeyInput)
  : Z * gmap string Z * TransactionData :=
  let '(sumOfInputs, transfers, txData) := vars in
  let sumOfInputs := numberAdd sumOfInputs (ki_amount input) in
  let '(found, publicSpendKey) := getKeyImageOwner (keyImage input) in
  if found then
    let amount := getOrZero transfers publicSpendKey in
    let amount := numberAdd amount (ki_amount input) in
    (sumOfInputs,
     <[publicSpendKey := amount]> transfers,
     pushKeyImageToMarkSpent (publicSpendKey, keyImage input) txData)
  else
    (sumOfInputs, transfers, txData).

Definition processTransactionInputs (keyInputs : list KeyInput)
    (transfers : gmap string Z) (blockHeight : Z) (txData : TransactionData)
  : Z * gmap string Z * TransactionData :=
  fold_left processTransactionInputs_body keyInputs (0%Z, transfers, txData).

(** The body of the source is [/* TODO */ return [0, transfers, txData]]. *)
Definition processTransactionOutputs (rawTX : RawCoinbaseTransaction)
    (transfers : gmap string Z) (blockHeight : Z) (txData : TransactionData)
  : Z * gmap string Z * TransactionData :=
  (0%Z, transfers, txData).

Definition processTransaction (rawTX : RawTransaction)
    (blockTimestamp blockHeight : Z) (txData : TransactionData)
  : TransactionData :=
  let transfers : gmap string Z := ∅ in
  (* Finds the sum of inputs, adds the amounts that belong to us to the
     transfers map *)
  let '(sumOfInputs, transfers, txData) :=
    processTransactionInputs (keyInputs rawTX) transfers blockHeight txData in
  (* Finds the sum of outputs, adds the amounts that belong to us to the
     transfers map, and stores any key images that belong to us *)
  let '(sumOfOutputs, transfers, txData) :=
    processTransactionOutputs rawTX transfers blockHeight txData in
  if negb (isEmptyMap transfers) then
    let fee := numberSub sumOfInputs sumOfOutputs in
    let isCoinbaseTransaction := false in
    let tx :=
      mkTransaction transfers (cb_hash rawTX) fee blockTimestamp blockHeight
        (paymentID rawTX) (cb_unlockTime rawTX) isCoinbaseTransaction in
    pushTransactionToAdd tx txData
  else txData.

Definition processCoinbaseTransaction (rawTX : RawCoinbaseTransaction)
    (blockTimestamp blockHeight : Z) (txData : TransactionData)
  : TransactionData :=
  let transfers : gmap string Z := ∅ in
  let '(_, transfers, txData) :=
    processTransactionOutputs rawTX transfers blockHeight txData in
  if negb (isEmptyMap transfers) then
    (* Coinbase transaction have no fee *)
    let fee := 0%Z in
    let isCoinbaseTransaction := true in
    (* Coinbase transactions can't have payment ID's *)
    let paymentID := "" in
    let tx :=
      mkTransaction transfers (cb_hash rawTX) fee blockTimestamp blockHeight
        paymentID (cb_unlockTime rawTX) isCoinbaseTransaction in
    pushTransactionToAdd tx txData
  else txData.

(** [checkLockedTransactions]: [/* TODO */ return []] *)
Definition checkLockedTransactions (transactionHashes : list string)
  : list string := [].

End Scanner.

(** ** Sequences of method calls *)

(** The public methods that assign to fields of the synchronizer.  The other
    public methods ([toJSON], [getHeight], the scanning methods,
    [checkLockedTransactions]) assign to none of them. *)
Inductive MethodCall :=
  | CallGetBlocks (daemon : IDaemon)
  | CallStoreBlockHash (blockHeight : Z) (blockHash : string).

(** A rejected [getBlocks] leaves the object as it was when the error was
    thrown; the caller may go on calling methods. *)
Definition stepCall (c : MethodCall) (w : Eff.World) : Eff.World :=
  match c with
  | CallGetBlocks daemon => snd (getBlocks daemon w)
  | CallStoreBlockHash blockHeight blockHash =>
      Eff.mkWorld (storeBlockHash blockHeight blockHash (Eff.this w))
        (Eff.trace w)
  end.

Definition runCalls (cs : list MethodCall) (w : Eff.World) : Eff.World :=
  fold_left (fun w c => stepCall c w) cs w.

(** ** Vocabulary of the statements *)

(** The checkpoint window the synchronizer sends to the daemon. *)
Definition checkpoints (this : WalletSynchronizer) : list string :=
  SynchronizationStatus.getBlockHashCheckpoints (synchronizationStatus this).

Definition throws {A} (r : Eff.Completion A * Eff.World) : Prop :=
  exists message, completion r = Eff.Throws message.

(** The daemon answered a sync request of the call with [batch]. *)
Definition returnedBatch {A} (r : Eff.Completion A * Eff.World)
    (batch : list Block) : Prop :=
  exists blockCheckpoints height timestamp,
    In (EvGetWalletSyncData blockCheckpoints height timestamp (Resolves batch))
       (calls r).

(** A sync request of the call was rejected by the daemon. *)
Definition fetchFailed {A} (r : Eff.Completion A * Eff.World) : Prop :=
  exists blockCheckpoints height timestamp err,
    In (EvGetWalletSyncData blockCheckpoints height timestamp (Rejects err))
       (calls r).

(** The daemon was asked for blocks. *)
Definition contactedForBlocks (tr : list Event) : Prop :=
  exists blockCheckpoints height timestamp reply,
    In (EvGetWalletSyncData blockCheckpoints height timestamp reply) tr.

(** The [(timestamp, height)] arguments of the conversion notifications of a
    trace, in the order they were issued. *)
Fixpoint notifications (tr : list Event) : list (Z * Z) :=
  match tr with
  | [] => []
  | EvConvertSyncTimestampToHeight timestamp height :: tr =>
      (timestamp, height) :: notifications tr
  | _ :: tr => notifications tr
  end.

Definition contains (message part : string) : Prop :=
  exists before behind, message = before +:+ part +:+ behind.

(** The synchronizer with its resume point pinned to [height]. *)
Definition pinned (height : Z) (this : WalletSynchronizer) : WalletSynchronizer :=
  {| startTimestamp := 0;
     startHeight := height;
     privateViewKey := privateViewKey this;
     synchronizationStatus := synchronizationStatus this |}.

(** A computation is framed when running it after a trace [tr] gives what
    running it from the empty trace gives, with [tr] in front. *)
Definition framed {A} (m : Eff.M A) : Prop :=
  forall w,
    m w =
      (fst (m (Eff.mkWorld (Eff.this w) [])),
       Eff.mkWorld (Eff.this (snd (m (Eff.mkWorld (Eff.this w) []))))
         (Eff.trace w ++ Eff.trace (snd (m (Eff.mkWorld (Eff.this w) []))))).

(** The six ways a call of [getBlocks] can go. *)
Inductive GetBlocksRun (daemon : IDaemon) (this : WalletSynchronizer)
  : Eff.Completion (list Block) * Eff.World -> Prop :=
  | RunNodeBehind :
      (getLocalDaemonBlockCount daemon < getHeight this)%Z ->
      GetBlocksRun daemon this
        (Eff.Returns [],
         Eff.mkWorld this
           [EvGetLocalDaemonBlockCount (getLocalDaemonBlockCount daemon)])
  | RunRejected err :
      (getHeight this <= getLocalDaemonBlockCount daemon)%Z ->
      GetBlocksRun daemon this
        (Eff.Returns [],
         Eff.mkWorld this
           [EvGetLocalDaemonBlockCount (getLocalDaemonBlockCount daemon);
            EvGetWalletSyncData (checkpoints this) (startHeight this)
              (startTimestamp this) (Rejects err)])
  | RunEmptyBatch :
      (getHeight this <= getLocalDaemonBlockCount daemon)%Z ->
      GetBlocksRun daemon this
        (Eff.Returns [],
         Eff.mkWorld this
           [EvGetLocalDaemonBlockCount (getLocalDaemonBlockCount daemon);
            EvGetWalletSyncData (checkpoints this) (startHeight this)
              (startTimestamp this) (Resolves [])])
  | RunPin first rest :
      (getHeight this <= getLocalDaemonBlockCount daemon)%Z ->
      startTimestamp this <> 0%Z ->
      GetBlocksRun daemon this
        (Eff.Returns (first :: rest),
         Eff.mkWorld (pinned (blockHeight first) this)
           [EvGetLocalDaemonBlockCount (getLocalDaemonBlockCount daemon);
            EvGetWalletSyncData (checkpoints this) (startHeight this)
              (startTimestamp this) (Resolves (first :: rest));
            EvConvertSyncTimestampToHeight 0 (blockHeight first)])
  | RunMismatch first rest :
      (getHeight this <= getLocalDaemonBlockCount daemon)%Z ->
      startTimestamp this = 0%Z ->
      checkpoints this = [] ->
      blockHeight first <> startHeight this ->
      GetBlocksRun daemon this
        (Eff.Throws
           (unexpectedHeightMessage (startHeight this) (blockHeight first)),
         Eff.mkWorld this
           [EvGetLocalDaemonBlockCount (getLocalDaemonBlockCount daemon);
            EvGetWalletSyncData (checkpoints this) (startHeight this)
              (startTimestamp this) (Resolves (first :: rest))])
  | RunPass first rest :
      (getHeight this <= getLocalDaemonBlockCount daemon)%Z ->
      startTimestamp this = 0%Z ->
      checkpoints this <> [] \/ blockHeight first = startHeight this ->
      GetBlocksRun daemon this
        (Eff.Returns (first :: rest),
         Eff.mkWorld this
           [EvGetLocalDaemonBlockCount (getLocalDaemonBlockCount daemon);
            EvGetWalletSyncData (checkpoints this) (startHeight this)
              (startTimestamp this) (Resolves (first :: rest))]).

(** *** The scanner *)

Section ScannerVocabulary.

Variable getKeyImageOwner : string -> bool * string.

(** The key-management collaborator reports the key image of [input] as
    owned, and by whom. *)
Definition owned (input : KeyInput) : bool :=
  fst (getKeyImageOwner (keyImage input)).

Definition owner (input : KeyInput) : string :=
  snd (getKeyImageOwner (keyImage input)).

(** The inputs the collaborator attributes to [publicSpendKey]. *)
Definition ownedBy (publicSpendKey : string) (keyInputs : list KeyInput)
  : list KeyInput :=
  List.filter (fun input => owned input && String.eqb (owner input) publicSpendKey)
    keyInputs.

Definition sumOfAmounts (keyInputs : list KeyInput) : Z :=
  foldr (fun input total => ki_amount input + total) 0 keyInputs.

(** The spend-markers of the owned inputs, in the order of the inputs. *)
Definition spendMarkers (keyInputs : list KeyInput) : list (string * string) :=
  map (fun input => (owner input, keyImage input)) (List.filter owned keyInputs).

End ScannerVocabulary.

(** The sum of the magnitudes of the amounts. *)
Definition magnitude (keyInputs : list KeyInput) : Z :=
  foldr (fun input total => Z.abs (ki_amount input) + total) 0 keyInputs.

(** No addition of the input scan can leave the range in which [number]
    addition is exact: whatever key the amounts go to, the magnitude of the
    amount pending for it plus the magnitudes of all the input amounts is
    at most 2^53. *)
Definition exactRange (transfers : gmap string Z) (keyInputs : list KeyInput)
  : Prop :=
  forall key,
    Z.abs (default 0 (transfers !! key)) + magnitude keyInputs <= maxExact.

(** [exactRange], with the running sum of the loop. *)
Definition inExactRange (sum : Z) (transfers : gmap string Z)
    (keyInputs : list KeyInput) : Prop :=
  Z.abs sum + magnitude keyInputs <= maxExact /\
  exactRange transfers keyInputs.

Definition sumOfOutputAmounts (keyOutputs : list KeyOutput) : Z :=
  foldr (fun output total => ko_amount output + total) 0 keyOutputs.

(** [afterwards] holds everything [before] held, in the same order, with the new
    entries behind. *)
Definition appendOnly (before afterwards : TransactionData) : Prop :=
  (exists added,
     transactionsToAdd afterwards =
       (transactionsToAdd before ++ added)%list) /\
  (exists added,
     keyImagesToMarkSpent afterwards =
       (keyImagesToMarkSpent before ++ added)%list).

Definition emptyTransactionData : TransactionData :=
  {| transactionsToAdd := []; keyImagesToMarkSpent := [] |}.

(** A subwallet ["alice"] that owns the key images ["img1"] and ["img2"]. *)
Definition sampleOwner (keyImage : string) : bool * string :=
  if String.eqb keyImage "img1" then (true, "alice")
  else if String.eqb keyImage "img2" then (true, "alice")
  else (false, "").

Definition sampleTransaction : RawTransaction :=
  {| base := {| keyOutputs := [mkKeyOutput "out1" 5];
                cb_hash := "tx1";
                transactionPublicKey := "pub1";
                cb_unlockTime := 0 |};
     paymentID := "pid";
     keyInputs := [mkKeyInput 4 "img1"; mkKeyInput 9 "other";
                   mkKeyInput 3 "img2"] |}.

(** ** Sample collaborators and states *)

Definition sampleBlock (height : Z) : Block :=
  {| coinbaseTransaction := None;
     transactions := [];
     blockHeight := height;
     blockHash := "c0ffee";
     blockTimestamp := 1540000000 |}.

(** A daemon at height 500000 that answers every request with the two
    blocks from [height] on. *)
Definition sampleDaemon (height : Z) : IDaemon :=
  {| getLocalDaemonBlockCount := 500000;
     getWalletSyncData := fun _ _ _ =>
       Resolves [sampleBlock height; sampleBlock (height + 1)] |}.

(** A daemon at height 300000 whose sync request fails. *)
Definition unreachableDaemon : IDaemon :=
  {| getLocalDaemonBlockCount := 300000;
     getWalletSyncData := fun _ _ _ => Rejects "ECONNREFUSED" |}.

(** A wallet that synced up to block 600000. *)
Definition syncedWallet : WalletSynchronizer :=
  storeBlockHash 600000 "beef" (constructor 0 200000 "viewkey").

(** The total of the amounts a transfer map holds. *)
Definition totalOfTransfers (transfers : gmap string Z) : Z :=
  map_fold (fun _ amount total => amount + total) 0 transfers.

(** The synchronizer after a sequence of method calls, and what the
    collaborators saw of it, started from an empty trace. *)
Definition lifetime (cs : list MethodCall) (this : WalletSynchronizer)
  : Eff.World := runCalls cs (Eff.mkWorld this []).

(** ** The operations on concrete inputs *)

(** Wallet at height 0, daemon at 500000, start height 200000, no start
    timestamp, no checkpoints: the request starts at 200000 and the batch
    is returned when its first block is block 200000. *)
Example getBlocks_first_sync_at_start_height :
  call (getBlocks (sampleDaemon 200000)) (constructor 0 200000 "viewkey") =
    (Eff.Returns [sampleBlock 200000; sampleBlock 200001],
     Eff.mkWorld (constructor 0 200000 "viewkey")
       [EvGetLocalDaemonBlockCount 500000;
        EvGetWalletSyncData [] 200000 0
          (Resolves [sampleBlock 200000; sampleBlock 200001])]).
Proof. reflexivity. Qed.

Example getBlocks_first_sync_at_other_height :
  completion
    (call (getBlocks (sampleDaemon 200001)) (constructor 0 200000 "viewkey")) =
    Eff.Throws
      ("Received unexpected block height from daemon. " +:+
       "Expected 200000, got 200001" +:+ newline).
Proof. reflexivity. Qed.

(** Started from a timestamp: the first batch pins the start height. *)
Example getBlocks_first_sync_from_timestamp :
  call (getBlocks (sampleDaemon 200123))
       (constructor 1540000000 0 "viewkey") =
    (Eff.Returns [sampleBlock 200123; sampleBlock 200124],
     Eff.mkWorld (constructor 0 200123 "viewkey")
       [EvGetLocalDaemonBlockCount 500000;
        EvGetWalletSyncData [] 0 1540000000
          (Resolves [sampleBlock 200123; sampleBlock 200124]);
        EvConvertSyncTimestampToHeight 0 200123]).
Proof. reflexivity. Qed.

(** Wallet at height 600000, daemon at 300000. *)
Example getBlocks_daemon_behind :
  call (getBlocks unreachableDaemon) syncedWallet =
    (Eff.Returns [],
     Eff.mkWorld syncedWallet [EvGetLocalDaemonBlockCount 300000]).
Proof. reflexivity. Qed.

Example processTransactionInputs_sample :
  processTransactionInputs sampleOwner (keyInputs sampleTransaction) ∅ 1
    emptyTransactionData =
    (16, {[ "alice" := 7 ]},
     {| transactionsToAdd := [];
        keyImagesToMarkSpent := [("alice", "img1"); ("alice", "img2")] |}).
Proof. vm_compute. reflexivity. Qed.

Example processTransaction_sample :
  processTransaction sampleOwner sampleTransaction 1540000000 1
    emptyTransactionData =
    {| transactionsToAdd :=
         [mkTransaction {[ "alice" := 7 ]} "tx1" 16 1540000000 1 "pid" 0
            false];
       keyImagesToMarkSpent := [("alice", "img1"); ("alice", "img2")] |}.
Proof. vm_compute. reflexivity. Qed.

Example processCoinbaseTransaction_sample :
  processCoinbaseTransaction (base sampleTransaction) 1540000000 1
    emptyTransactionData = emptyTransactionData.
Proof. reflexivity. Qed.

(** ** getBlocks, case by case *)

Section GetBlocksFacts.

Import Eff.

Variable daemon : IDaemon.
Variable this : WalletSynchronizer.

Let localCount : Z := getLocalDaemonBlockCount daemon.
Let request : Event :=
  EvGetWalletSyncData (checkpoints this) (startHeight this)
    (startTimestamp this)
    (getWalletSyncData daemon (checkpoints this) (startHeight this)
       (startTimestamp this)).

Lemma getBlocks_node_behind_run :
  (localCount < getHeight this)%Z ->
  call (getBlocks daemon) this =
    (Returns [], mkWorld this [EvGetLocalDaemonBlockCount localCount]).
Proof.
  intros Hlt. apply Z.ltb_lt in Hlt.
  unfold call, getBlocks, bind, daemon_getLocalDaemonBlockCount, emit, ret,
    read; simpl.
  fold localCount. rewrite Hlt. reflexivity.
Qed.

Lemma getBlocks_rejected_run err :
  (getHeight this <= localCount)%Z ->
  getWalletSyncData daemon (checkpoints this) (startHeight this)
    (startTimestamp this) = Rejects err ->
  call (getBlocks daemon) this =
    (Returns [],
     mkWorld this [EvGetLocalDaemonBlockCount localCount; request]).
Proof.
  intros Hge Hreply. apply Z.ltb_ge in Hge.
  unfold call, getBlocks, bind, daemon_getLocalDaemonBlockCount,
    daemon_getWalletSyncData, emit, ret, read; simpl.
  fold localCount. rewrite Hge. simpl.
  fold (checkpoints this). unfold request. rewrite Hreply. reflexivity.
Qed.

Lemma getBlocks_empty_batch_run :
  (getHeight this <= localCount)%Z ->
  getWalletSyncData daemon (checkpoints this) (startHeight this)
    (startTimestamp this) = Resolves [] ->
  call (getBlocks daemon) this =
    (Returns [],
     mkWorld this [EvGetLocalDaemonBlockCount localCount; request]).
Proof.
  intros Hge Hreply. apply Z.ltb_ge in Hge.
  unfold call, getBlocks, bind, daemon_getLocalDaemonBlockCount,
    daemon_getWalletSyncData, emit, ret, read; simpl.
  fold localCount. rewrite Hge. simpl.
  fold (checkpoints this). unfold request. rewrite Hreply. reflexivity.
Qed.

Lemma getBlocks_pin_run first rest :
  (getHeight this <= localCount)%Z ->
  getWalletSyncData daemon (checkpoints this) (startHeight this)
    (startTimestamp this) = Resolves (first :: rest) ->
  startTimestamp this <> 0%Z ->
  call (getBlocks daemon) this =
    (Returns (first :: rest),
     mkWorld (pinned (blockHeight first) this)
       [EvGetLocalDaemonBlockCount localCount; request;
        EvConvertSyncTimestampToHeight 0 (blockHeight first)]).
Proof.
  intros Hge Hreply Hts. apply Z.ltb_ge in Hge. apply Z.eqb_neq in Hts.
  unfold call, getBlocks, bind, daemon_getLocalDaemonBlockCount,
    daemon_getWalletSyncData, emit, ret, read; simpl.
  fold localCount. rewrite Hge. simpl.
  fold (checkpoints this). unfold request. rewrite Hreply. simpl.
  rewrite Hts. simpl.
  unfold pinned. destruct (isEmpty (checkpoints this)); simpl;
    rewrite ?Z.eqb_refl; reflexivity.
Qed.

Lemma getBlocks_mismatch_run first rest :
  (getHeight this <= localCount)%Z ->
  getWalletSyncData daemon (checkpoints this) (startHeight this)
    (startTimestamp this) = Resolves (first :: rest) ->
  startTimestamp this = 0%Z ->
  checkpoints this = [] ->
  blockHeight first <> startHeight this ->
  call (getBlocks daemon) this =
    (Throws (unexpectedHeightMessage (startHeight this) (blockHeight first)),
     mkWorld this [EvGetLocalDaemonBlockCount localCount; request]).
Proof.
  intros Hge Hreply Hts Hcps Hne.
  apply Z.ltb_ge in Hge. apply Z.eqb_neq in Hne.
  unfold call, getBlocks, bind, daemon_getLocalDaemonBlockCount,
    daemon_getWalletSyncData, emit, ret, read; simpl.
  fold localCount. rewrite Hge. simpl.
  fold (checkpoints this). unfold request. rewrite Hreply. simpl.
  rewrite Hcps. repeat (rewrite ?Hts, ?Hne; simpl). reflexivity.
Qed.

Lemma getBlocks_pass_run first rest :
  (getHeight this <= localCount)%Z ->
  getWalletSyncData daemon (checkpoints this) (startHeight this)
    (startTimestamp this) = Resolves (first :: rest) ->
  startTimestamp this = 0%Z ->
  checkpoints this <> [] \/ blockHeight first = startHeight this ->
  call (getBlocks daemon) this =
    (Returns (first :: rest),
     mkWorld this [EvGetLocalDaemonBlockCount localCount; request]).
Proof.
  intros Hge Hreply Hts Hok. apply Z.ltb_ge in Hge.
  unfold call, getBlocks, bind, daemon_getLocalDaemonBlockCount,
    daemon_getWalletSyncData, emit, ret, read; simpl.
  fold localCount. rewrite Hge. simpl.
  fold (checkpoints this). unfold request. rewrite Hreply. simpl.
  destruct (checkpoints this) as [|c cs] eqn:Hcps.
  - destruct Hok as [Hok | Hok]; [congruence |].
    apply Z.eqb_eq in Hok. repeat (rewrite ?Hts, ?Hok; simpl). reflexivity.
  - repeat (rewrite ?Hts; simpl). reflexivity.
Qed.

End GetBlocksFacts.

Lemma getBlocks_run (daemon : IDaemon) (this : WalletSynchronizer) :
  GetBlocksRun daemon this (call (getBlocks daemon) this).
Proof.
  destruct (Z.lt_ge_cases (getLocalDaemonBlockCount daemon) (getHeight this))
    as [Hlt | Hge].
  { rewrite getBlocks_node_behind_run by exact Hlt. now constructor. }
  destruct (getWalletSyncData daemon (checkpoints this) (startHeight this)
              (startTimestamp this)) as [[|first rest] | err] eqn:Hreply.
  - rewrite getBlocks_empty_batch_run by assumption.
    rewrite Hreply. now constructor.
  - destruct (Z.eq_dec (startTimestamp this) 0) as [Hts | Hts].
    + assert (Hcps : checkpoints this = [] \/ checkpoints this <> [])
        by (destruct (checkpoints this); [left | right]; congruence).
      destruct Hcps as [Hcps | Hcps];
        [destruct (Z.eq_dec (blockHeight first) (startHeight this))
           as [Heq | Hne] |].
      * rewrite (getBlocks_pass_run daemon this first rest) by auto.
        rewrite Hreply. constructor; auto.
      * rewrite (getBlocks_mismatch_run daemon this first rest) by auto.
        rewrite Hreply. constructor; auto.
      * rewrite (getBlocks_pass_run daemon this first rest) by auto.
        rewrite Hreply. constructor; auto.
    + rewrite (getBlocks_pin_run daemon this first rest) by assumption.
      rewrite Hreply. now constructor.
  - rewrite (getBlocks_rejected_run daemon this err) by assumption.
    rewrite Hreply. now constructor.
Qed.

(** ** Calls only add to the trace *)

Section Framing.

Import Eff.

Lemma framed_ret {A} (a : A) : framed (ret a).
Proof. intros [s tr]. unfold ret. simpl. now rewrite app_nil_r. Qed.

Lemma framed_throw {A} (message : string) : framed (@throw A message).
Proof. intros [s tr]. unfold throw. simpl. now rewrite app_nil_r. Qed.

Lemma framed_read {A} (field : WalletSynchronizer -> A) : framed (read field).
Proof. intros [s tr]. unfold read. simpl. now rewrite app_nil_r. Qed.

Lemma framed_assignStartTimestamp v : framed (assignStartTimestamp v).
Proof. intros [s tr]. unfold assignStartTimestamp. simpl. now rewrite app_nil_r. Qed.

Lemma framed_assignStartHeight v : framed (assignStartHeight v).
Proof. intros [s tr]. unfold assignStartHeight. simpl. now rewrite app_nil_r. Qed.

Lemma framed_emit e : framed (emit e).
Proof. intros [s tr]. reflexivity. Qed.

Lemma framed_bind {A B} (m : M A) (k : A -> M B) :
  framed m -> (forall a, framed (k a)) -> framed (bind m k).
Proof.
  intros Hm Hk w. unfold bind. rewrite (Hm w).
  destruct (m (mkWorld (this w) [])) as [[a | message] [s1 tr1]]; simpl.
  - rewrite (Hk a (mkWorld s1 (trace w ++ tr1))).
    rewrite (Hk a (mkWorld s1 tr1)). simpl.
    now rewrite app_assoc.
  - reflexivity.
Qed.

Lemma framed_when b (m : M unit) : framed m -> framed (when b m).
Proof. intros Hm. destruct b; simpl; [exact Hm | apply framed_ret]. Qed.

Lemma framed_getBlocks daemon : framed (getBlocks daemon).
Proof.
  unfold getBlocks, daemon_getLocalDaemonBlockCount, daemon_getWalletSyncData,
    subWallets_convertSyncTimestampToHeight.
  repeat first
    [ apply framed_ret | apply framed_throw | apply framed_read
    | apply framed_emit | apply framed_assignStartTimestamp
    | apply framed_assignStartHeight | apply framed_when
    | apply framed_bind; [| intros ?]
    | match goal with
      | |- framed (if ?b then _ else _) => destruct b
      | |- framed (match ?x with _ => _ end) => destruct x
      end ].
Qed.

End Framing.

(** One more call of [getBlocks] in a sequence, in terms of [call]. *)
Lemma stepCall_getBlocks daemon (w : Eff.World) :
  stepCall (CallGetBlocks daemon) w =
    Eff.mkWorld (after (call (getBlocks daemon) (Eff.this w)))
      (Eff.trace w ++ calls (call (getBlocks daemon) (Eff.this w))).
Proof. simpl. now rewrite (framed_getBlocks daemon w). Qed.

Lemma notifications_app (tr1 tr2 : list Event) :
  notifications (tr1 ++ tr2) = (notifications tr1 ++ notifications tr2)%list.
Proof.
  induction tr1 as [| e tr1 IH]; simpl; [reflexivity |].
  destruct e; simpl; now rewrite IH.
Qed.

(** Once the start timestamp is zero a call neither changes it nor
    notifies the key-management collaborator. *)
Lemma getBlocks_resolved_stable daemon (this : WalletSynchronizer) :
  startTimestamp this = 0%Z ->
  startTimestamp (after (call (getBlocks daemon) this)) = 0%Z /\
  notifications (calls (call (getBlocks daemon) this)) = [].
Proof.
  intros Hts.
  destruct (getBlocks_run daemon this); unfold after, calls; simpl;
    auto; contradiction.
Qed.

Lemma stepCall_resolved_stable (c : MethodCall) (w : Eff.World) :
  startTimestamp (Eff.this w) = 0%Z ->
  startTimestamp (Eff.this (stepCall c w)) = 0%Z /\
  notifications (Eff.trace (stepCall c w)) = notifications (Eff.trace w).
Proof.
  intros Hts. destruct c as [daemon | h hash].
  - rewrite stepCall_getBlocks. simpl.
    destruct (getBlocks_resolved_stable daemon (Eff.this w) Hts) as [H1 H2].
    rewrite notifications_app, H2, app_nil_r. auto.
  - simpl. auto.
Qed.

Lemma runCalls_resolved_stable (cs : list MethodCall) (w : Eff.World) :
  startTimestamp (Eff.this w) = 0%Z ->
  startTimestamp (Eff.this (runCalls cs w)) = 0%Z /\
  notifications (Eff.trace (runCalls cs w)) = notifications (Eff.trace w).
Proof.
  revert w. induction cs as [| c cs IH]; intros w Hts; simpl; [auto |].
  destruct (stepCall_resolved_stable c w Hts) as [H1 H2].
  destruct (IH (stepCall c w) H1) as [H3 H4].
  split; [exact H3 | congruence].
Qed.

(** ** Properties of getBlocks *)

Lemma append_assoc_string (a b c : string) :
  (a +:+ b) +:+ c = a +:+ b +:+ c.
Proof.
  induction a as [| ch a IH]; [reflexivity |].
  change (String ch ((a +:+ b) +:+ c) = String ch (a +:+ b +:+ c)).
  now rewrite IH.
Qed.

Lemma unexpectedHeightMessage_expected (expected actual : Z) :
  contains (unexpectedHeightMessage expected actual) (numberToString expected).
Proof.
  exists "Received unexpected block height from daemon. Expected ",
         (", got " +:+ numberToString actual +:+ newline).
  reflexivity.
Qed.

Lemma unexpectedHeightMessage_actual (expected actual : Z) :
  contains (unexpectedHeightMessage expected actual) (numberToString actual).
Proof.
  exists ("Received unexpected block height from daemon. Expected " +:+
          numberToString expected +:+ ", got "), newline.
  unfold unexpectedHeightMessage.
  now rewrite !append_assoc_string.
Qed.

Ltac returning_run :=
  split;
  [ split; [intros [? ?]; discriminate |]
  | split; [intros ? ?; discriminate | intros _; eauto] ].

(** C1.  A call of [getBlocks] throws exactly when the checkpoint window
    and the start timestamp were empty and zero on entry and the daemon
    returned a batch whose first block is not at the start height; the
    message of the error then is the one that names the expected start
    height and the height received, and it contains both numbers.  In
    every other case the call returns. *)
Theorem getBlocks_throws_iff_first_sync_mismatch
    (daemon : IDaemon) (this : WalletSynchronizer) :
  let r := call (getBlocks daemon) this in
  (throws r <->
     checkpoints this = [] /\
     startTimestamp this = 0%Z /\
     exists first rest,
       returnedBatch r (first :: rest) /\
       blockHeight first <> startHeight this)
  /\
  (forall message, completion r = Eff.Throws message ->
     exists first rest,
       returnedBatch r (first :: rest) /\
       message =
         unexpectedHeightMessage (startHeight this) (blockHeight first) /\
       contains message (numberToString (startHeight this)) /\
       contains message (numberToString (blockHeight first)))
  /\
  (~ throws r -> exists blocks, completion r = Eff.Returns blocks).
Proof.
  intros r. subst r.
  destruct (getBlocks_run daemon this) as
    [Hlt | err Hge | Hge | first rest Hge Hts
     | first rest Hge Hts Hcps Hne | first rest Hge Hts Hok];
    unfold throws, returnedBatch, completion, calls; simpl.
  - (* node behind: no batch was returned *)
    returning_run.
    intros (_ & _ & first & rest & (cps & h & t & Hin) & _).
    destruct Hin as [Hin | []]; discriminate.
  - (* rejected *)
    returning_run.
    intros (_ & _ & first & rest & (cps & h & t & Hin) & _).
    destruct Hin as [Hin | [Hin | []]]; discriminate.
  - (* empty batch *)
    returning_run.
    intros (_ & _ & first & rest & (cps & h & t & Hin) & _).
    destruct Hin as [Hin | [Hin | []]]; discriminate.
  - (* pin *)
    returning_run.
    intros (_ & Hz & _). contradiction.
  - (* mismatch *)
    split; [split |].
    + intros _. repeat split; auto.
      exists first, rest. split; [| exact Hne].
      exists (checkpoints this), (startHeight this), (startTimestamp this).
      right; left; reflexivity.
    + eauto.
    + split.
      * intros message Hm. injection Hm as <-.
        exists first, rest. split; [| split; [reflexivity | split]].
        -- exists (checkpoints this), (startHeight this),
             (startTimestamp this).
           right; left; reflexivity.
        -- apply unexpectedHeightMessage_expected.
        -- apply unexpectedHeightMessage_actual.
      * intros Hno. exfalso. apply Hno. eauto.
  - (* the heights agree, or the window is not empty *)
    returning_run.
    intros (Hcps & _ & b & bs & (cps & h & t & Hin) & Hne).
    destruct Hin as [Hin | [Hin | []]]; [discriminate |].
    injection Hin as _ _ _ Hb _. subst b.
    destruct Hok; contradiction.
Qed.

(** C2.  When [getBlocks] returns a non-empty batch and the start timestamp
    was not zero on entry, then after the call the start timestamp is zero,
    the start height is the height of the first returned block and the
    call sent exactly one conversion notification; whatever methods are
    called afterwards, the start timestamp stays zero and no further
    notification is sent. *)
Theorem getBlocks_pins_resume_point_once
    (daemon : IDaemon) (this : WalletSynchronizer)
    (first : Block) (rest : list Block) :
  startTimestamp this <> 0 ->
  completion (call (getBlocks daemon) this) = Eff.Returns (first :: rest) ->
  let r := call (getBlocks daemon) this in
  startTimestamp (after r) = 0 /\
  startHeight (after r) = blockHeight first /\
  length (notifications (calls r)) = 1%nat /\
  forall later : list MethodCall,
    startTimestamp (Eff.this (runCalls later (snd r))) = 0 /\
    notifications (Eff.trace (runCalls later (snd r))) =
      notifications (calls r).
Proof.
  intros Hts Hret r. subst r. revert Hret.
  destruct (getBlocks_run daemon this) as
    [Hlt | err Hge | Hge | b bs Hge _
     | b bs Hge Hz Hcps Hne | b bs Hge Hz Hok];
    unfold completion, after, calls; simpl; intros Hret;
    try discriminate; try contradiction.
  injection Hret as -> ->.
  repeat split; try reflexivity.
  - now apply (runCalls_resolved_stable later).
  - now apply (runCalls_resolved_stable later).
Qed.

Lemma getBlocks_pins_resume_point_once_witness :
  let daemon := sampleDaemon 200123 in
  let this := constructor 1540000000 0 "viewkey" in
  let r := call (getBlocks daemon) this in
  startTimestamp (after r) = 0 /\
  startHeight (after r) = 200123 /\
  length (notifications (calls r)) = 1%nat /\
  forall later : list MethodCall,
    startTimestamp (Eff.this (runCalls later (snd r))) = 0 /\
    notifications (Eff.trace (runCalls later (snd r))) =
      notifications (calls r).
Proof.
  apply (getBlocks_pins_resume_point_once (sampleDaemon 200123)
           (constructor 1540000000 0 "viewkey")
           (sampleBlock 200123) [sampleBlock 200124]).
  - discriminate.
  - reflexivity.
Defined.

(** C6.  When the daemon's local height is below the synchronizer's synced
    height, [getBlocks] returns the empty batch, the synchronizer is the
    same afterwards (start height, start timestamp, synchronization
    status), and the daemon was not asked for blocks. *)
Theorem getBlocks_node_behind_is_noop
    (daemon : IDaemon) (this : WalletSynchronizer) :
  getLocalDaemonBlockCount daemon < getHeight this ->
  let r := call (getBlocks daemon) this in
  completion r = Eff.Returns [] /\
  after r = this /\
  startHeight (after r) = startHeight this /\
  startTimestamp (after r) = startTimestamp this /\
  synchronizationStatus (after r) = synchronizationStatus this /\
  ~ contactedForBlocks (calls r).
Proof.
  intros Hlt r. subst r.
  rewrite getBlocks_node_behind_run by exact Hlt.
  unfold completion, after, calls, contactedForBlocks; simpl.
  repeat split.
  intros (cps & h & t & reply & [Hin | []]). discriminate.
Qed.

Lemma getBlocks_node_behind_is_noop_witness :
  let r := call (getBlocks (sampleDaemon 200000)) syncedWallet in
  completion r = Eff.Returns [] /\
  after r = syncedWallet /\
  startHeight (after r) = startHeight syncedWallet /\
  startTimestamp (after r) = startTimestamp syncedWallet /\
  synchronizationStatus (after r) = synchronizationStatus syncedWallet /\
  ~ contactedForBlocks (calls r).
Proof.
  apply (getBlocks_node_behind_is_noop (sampleDaemon 200000) syncedWallet).
  reflexivity.
Defined.

(** C7.  When the daemon rejects the sync request of a call, [getBlocks]
    returns the empty batch, nothing is thrown, and start height and start
    timestamp are what they were. *)
Theorem getBlocks_fetch_failure_is_silent
    (daemon : IDaemon) (this : WalletSynchronizer) :
  fetchFailed (call (getBlocks daemon) this) ->
  let r := call (getBlocks daemon) this in
  completion r = Eff.Returns [] /\
  ~ throws r /\
  startHeight (after r) = startHeight this /\
  startTimestamp (after r) = startTimestamp this.
Proof.
  intros Hfail r. subst r. revert Hfail.
  destruct (getBlocks_run daemon this) as
    [Hlt | err Hge | Hge | b bs Hge Hts
     | b bs Hge Hz Hcps Hne | b bs Hge Hz Hok];
    unfold fetchFailed, throws, completion, after, calls; simpl;
    intros (cps & h & t & e & Hin).
  2: { repeat split. intros [message Hm]. discriminate. }
  all: exfalso; repeat (destruct Hin as [Hin | Hin]; try discriminate);
    destruct Hin.
Qed.

Lemma getBlocks_fetch_failure_is_silent_witness :
  let this := constructor 1540000000 0 "viewkey" in
  let r := call (getBlocks unreachableDaemon) this in
  completion r = Eff.Returns [] /\
  ~ throws r /\
  startHeight (after r) = 0 /\
  startTimestamp (after r) = 1540000000.
Proof.
  apply (getBlocks_fetch_failure_is_silent unreachableDaemon
           (constructor 1540000000 0 "viewkey")).
  exists [], 0, 1540000000, "ECONNREFUSED".
  right; left; reflexivity.
Defined.

(** C9.  Every conversion notification a call of [getBlocks] sends carries
    the timestamp 0: the start timestamp was not zero on entry, the field
    is zero when the call is over, and the value it had on entry is not the
    one passed to the key-management collaborator. *)
Theorem getBlocks_notifies_with_zero_timestamp
    (daemon : IDaemon) (this : WalletSynchronizer) (timestamp height : Z) :
  In (EvConvertSyncTimestampToHeight timestamp height)
     (calls (call (getBlocks daemon) this)) ->
  timestamp = 0 /\
  startTimestamp this <> 0 /\
  timestamp <> startTimestamp this /\
  startTimestamp (after (call (getBlocks daemon) this)) = 0.
Proof.
  destruct (getBlocks_run daemon this) as
    [Hlt | err Hge | Hge | b bs Hge Hts
     | b bs Hge Hz Hcps Hne | b bs Hge Hz Hok];
    unfold after, calls; simpl; intros Hin.
  4: { destruct Hin as [Hin | [Hin | [Hin | []]]]; try discriminate.
       injection Hin as <- <-. repeat split; auto. }
  all: exfalso; destruct Hin as [Hin | Hin]; try discriminate;
    try (destruct Hin as [Hin | []]; discriminate); destruct Hin.
Qed.

Lemma getBlocks_notifies_with_zero_timestamp_witness :
  let this := constructor 1540000000 0 "viewkey" in
  let r := call (getBlocks (sampleDaemon 200123)) this in
  In (EvConvertSyncTimestampToHeight 0 200123) (calls r) /\
  0 = 0 /\
  startTimestamp this <> 0 /\
  0 <> startTimestamp this /\
  startTimestamp (after r) = 0.
Proof.
  assert (Hin :
    In (EvConvertSyncTimestampToHeight 0 200123)
       (calls (call (getBlocks (sampleDaemon 200123))
                 (constructor 1540000000 0 "viewkey")))).
  { right; right; left; reflexivity. }
  split; [exact Hin |].
  exact (getBlocks_notifies_with_zero_timestamp (sampleDaemon 200123)
           (constructor 1540000000 0 "viewkey") 0 200123 Hin).
Defined.

(** ** Serialization *)

(** C8.  Restoring a synchronizer from its own [toJSON] gives a
    synchronizer with the same current height, the same checkpoint-hash
    window, the same start height, start timestamp and private view key. *)
Theorem fromJSON_toJSON_round_trip (this : WalletSynchronizer) :
  let restored := fromJSON (toJSON this) in
  getHeight restored = getHeight this /\
  checkpoints restored = checkpoints this /\
  startHeight restored = startHeight this /\
  startTimestamp restored = startTimestamp this /\
  privateViewKey restored = privateViewKey this /\
  restored = this.
Proof.
  destruct this as [ts h key [height window]].
  repeat split.
Qed.

(** ** Arithmetic of [number] in the exact range *)

Lemma roundToNumber_exact (n : Z) :
  Z.abs n <= maxExact -> roundToNumber n = n.
Proof.
  intros Hn. apply Z.leb_le in Hn.
  unfold roundToNumber. cbv zeta. now rewrite Hn.
Qed.

Lemma numberAdd_exact (a b : Z) :
  Z.abs a + Z.abs b <= maxExact -> numberAdd a b = a + b.
Proof. intros Hab. apply roundToNumber_exact. lia. Qed.

Lemma numberSub_exact (a b : Z) :
  Z.abs a + Z.abs b <= maxExact -> numberSub a b = a - b.
Proof. intros Hab. apply roundToNumber_exact. lia. Qed.

Lemma roundToNumber_nonnegative (n : Z) : 0 <= n -> 0 <= roundToNumber n.
Proof.
  intros Hn. unfold roundToNumber. cbv zeta.
  destruct (Z.abs n <=? maxExact); [exact Hn |].
  assert (Hulp : 0 <= 2 ^ (Z.log2 (Z.abs n) - 52))
    by (apply Z.pow_nonneg; lia).
  assert (Hq : 0 <= Z.abs n / 2 ^ (Z.log2 (Z.abs n) - 52))
    by (apply Z_div_nonneg_nonneg; lia).
  apply Z.mul_nonneg_nonneg; [apply Z.sgn_nonneg; exact Hn |].
  apply Z.mul_nonneg_nonneg; [| exact Hulp].
  repeat match goal with
         | |- context [if ?c then _ else _] => destruct c
         end; lia.
Qed.

(** Beyond the exact range an addition rounds. *)
Example numberAdd_rounds_to_even :
  numberAdd (2 ^ 53) 1 = 2 ^ 53 /\
  numberAdd (2 ^ 53) 2 = 2 ^ 53 + 2 /\
  numberAdd (2 ^ 53) 3 = 2 ^ 53 + 4 /\
  numberAdd (2 ^ 53 - 1) 2 = 2 ^ 53 /\
  numberAdd (- 2 ^ 53) (-3) = - (2 ^ 53 + 4) /\
  numberAdd (2 ^ 54) 2 = 2 ^ 54 /\
  numberAdd (2 ^ 54) 6 = 2 ^ 54 + 8.
Proof. repeat split. Qed.

(** ** Properties of the scanner *)

Lemma magnitude_nonnegative (keyInputs : list KeyInput) :
  0 <= magnitude keyInputs.
Proof. induction keyInputs as [| input l IH]; simpl; lia. Qed.

Lemma magnitude_app (l1 l2 : list KeyInput) :
  magnitude (l1 ++ l2) = magnitude l1 + magnitude l2.
Proof. induction l1 as [| input l1 IH]; simpl; lia. Qed.

Lemma sumOfAmounts_magnitude (keyInputs : list KeyInput) :
  Z.abs (sumOfAmounts keyInputs) <= magnitude keyInputs.
Proof. induction keyInputs as [| input l IH]; simpl; lia. Qed.

Lemma exactRange_inExactRange (transfers : gmap string Z)
    (keyInputs : list KeyInput) :
  exactRange transfers keyInputs -> inExactRange 0 transfers keyInputs.
Proof.
  intros Hrange. split; [| exact Hrange].
  specialize (Hrange ""). simpl. lia.
Qed.

Section ScannerFacts.

Variable getKeyImageOwner : string -> bool * string.

Local Abbreviation body := (processTransactionInputs_body getKeyImageOwner).
Local Abbreviation isOwned := (owned getKeyImageOwner).
Local Abbreviation ownerOf := (owner getKeyImageOwner).
Local Abbreviation inputsOf := (ownedBy getKeyImageOwner).
Local Abbreviation markersOf := (spendMarkers getKeyImageOwner).

Lemma getOrZero_default (transfers : gmap string Z) (key : string) :
  getOrZero transfers key = default 0 (transfers !! key).
Proof.
  unfold getOrZero. destruct (transfers !! key) as [amount |]; simpl; auto.
  destruct (Z.eqb_spec amount 0); auto.
Qed.

Lemma isEmptyMap_true (transfers : gmap string Z) :
  isEmptyMap transfers = true <-> transfers = ∅.
Proof.
  unfold isEmptyMap. rewrite Nat.eqb_eq. apply map_size_empty_iff.
Qed.

(** What one round of the loop does to the three variables. *)
Lemma body_owned (sum : Z) (transfers : gmap string Z)
    (txData : TransactionData) (input : KeyInput) :
  isOwned input = true ->
  body (sum, transfers, txData) input =
    (numberAdd sum (ki_amount input),
     <[ownerOf input :=
         numberAdd (default 0 (transfers !! ownerOf input)) (ki_amount input)]>
       transfers,
     pushKeyImageToMarkSpent (ownerOf input, keyImage input) txData).
Proof.
  unfold owned, owner, processTransactionInputs_body.
  destruct (getKeyImageOwner (keyImage input)) as [found key]; simpl.
  intros ->. now rewrite getOrZero_default.
Qed.

Lemma body_not_owned (sum : Z) (transfers : gmap string Z)
    (txData : TransactionData) (input : KeyInput) :
  isOwned input = false ->
  body (sum, transfers, txData) input =
    (numberAdd sum (ki_amount input), transfers, txData).
Proof.
  unfold owned, processTransactionInputs_body.
  destruct (getKeyImageOwner (keyImage input)) as [found key]; simpl.
  now intros ->.
Qed.

Lemma inputsOf_cons (key : string) (input : KeyInput)
    (keyInputs : list KeyInput) :
  inputsOf key (input :: keyInputs) =
    if isOwned input && String.eqb (ownerOf input) key
    then input :: inputsOf key keyInputs
    else inputsOf key keyInputs.
Proof. reflexivity. Qed.

Lemma markersOf_cons (input : KeyInput) (keyInputs : list KeyInput) :
  markersOf (input :: keyInputs) =
    if isOwned input
    then (ownerOf input, keyImage input) :: markersOf keyInputs
    else markersOf keyInputs.
Proof. unfold spendMarkers. simpl. now destruct (isOwned input). Qed.

(** The loop, from any values of its variables: what it records, and which
    keys of the map it touches.  No arithmetic is involved. *)
Lemma inputs_loop_records (keyInputs : list KeyInput) :
  forall (sum : Z) (transfers : gmap string Z) (txData : TransactionData),
    let r := fold_left body keyInputs (sum, transfers, txData) in
    keyImagesToMarkSpent r.2 =
      (keyImagesToMarkSpent txData ++ markersOf keyInputs)%list /\
    transactionsToAdd r.2 = transactionsToAdd txData /\
    (forall key, inputsOf key keyInputs = [] ->
       r.1.2 !! key = transfers !! key) /\
    (forall key, inputsOf key keyInputs <> [] -> is_Some (r.1.2 !! key)).
Proof.
  induction keyInputs as [| input keyInputs IH];
    intros sum transfers txData r; subst r.
  - simpl. rewrite app_nil_r. repeat split; auto. intros key H. now destruct H.
  - change (fold_left body (input :: keyInputs) (sum, transfers, txData))
      with (fold_left body keyInputs (body (sum, transfers, txData) input)).
    rewrite markersOf_cons.
    destruct (isOwned input) eqn:Hown.
    + rewrite body_owned by exact Hown.
      match goal with
      | |- context [fold_left body keyInputs (?s, ?t, ?d)] =>
          destruct (IH s t d) as (Hspent & Htxs & Hsame & Hsome)
      end.
      split; [| split; [| split]].
      * rewrite Hspent. simpl. now rewrite <- app_assoc.
      * rewrite Htxs. reflexivity.
      * intros key. rewrite inputsOf_cons, Hown. simpl.
        destruct (String.eqb_spec (ownerOf input) key) as [<- | Hne];
          [discriminate |].
        intros Hnil. rewrite (Hsame key Hnil).
        now rewrite lookup_insert_ne.
      * intros key. rewrite inputsOf_cons, Hown. simpl.
        destruct (String.eqb_spec (ownerOf input) key) as [<- | Hne].
        -- intros _.
           destruct (inputsOf (ownerOf input) keyInputs) eqn:Hrest.
           ++ rewrite (Hsame _ Hrest), lookup_insert_eq. eauto.
           ++ apply Hsome. rewrite Hrest. discriminate.
        -- apply Hsome.
    + rewrite body_not_owned by exact Hown.
      destruct (IH (numberAdd sum (ki_amount input)) transfers txData)
        as (Hspent & Htxs & Hsame & Hsome).
      split; [| split; [| split]]; auto.
      * intros key. rewrite inputsOf_cons, Hown. apply Hsame.
      * intros key. rewrite inputsOf_cons, Hown. apply Hsome.
Qed.

(** One round of the loop in the exact range: both additions are exact, and
    the range holds for the rest of the inputs. *)
Lemma body_in_range (sum : Z) (transfers : gmap string Z)
    (txData : TransactionData) (input : KeyInput) (keyInputs : list KeyInput) :
  inExactRange sum transfers (input :: keyInputs) ->
  exists transfers' txData',
    body (sum, transfers, txData) input =
      (sum + ki_amount input, transfers', txData') /\
    inExactRange (sum + ki_amount input) transfers' keyInputs /\
    (isOwned input = true ->
     transfers' =
       <[ownerOf input :=
           default 0 (transfers !! ownerOf input) + ki_amount input]>
         transfers /\
     txData' =
       pushKeyImageToMarkSpent (ownerOf input, keyImage input) txData) /\
    (isOwned input = false -> transfers' = transfers /\ txData' = txData).
Proof.
  intros [Hsum Hmap]. simpl in Hsum.
  assert (Hmap' : forall key,
            Z.abs (default 0 (transfers !! key)) + Z.abs (ki_amount input) +
            magnitude keyInputs <= maxExact).
  { intros key. specialize (Hmap key). simpl in Hmap. lia. }
  pose proof (magnitude_nonnegative keyInputs) as Hmag.
  destruct (isOwned input) eqn:Hown.
  - rewrite body_owned by exact Hown.
    rewrite !numberAdd_exact
      by (try specialize (Hmap' (ownerOf input)); lia).
    eexists _, _. split; [reflexivity |].
    split; [| split; [auto | discriminate]].
    split; [lia |].
    intros key. destruct (decide (ownerOf input = key)) as [<- | Hne].
    + rewrite lookup_insert_eq. simpl.
      specialize (Hmap' (ownerOf input)). lia.
    + rewrite lookup_insert_ne by exact Hne.
      specialize (Hmap' key). lia.
  - rewrite body_not_owned by exact Hown.
    rewrite numberAdd_exact by lia.
    eexists _, _. split; [reflexivity |].
    split; [| split; [discriminate | auto]].
    split; [lia |].
    intros key. specialize (Hmap' key). lia.
Qed.

(** The loop in the exact range, from any values of its variables. *)
Lemma inputs_loop (keyInputs : list KeyInput) :
  forall (sum : Z) (transfers : gmap string Z) (txData : TransactionData),
    inExactRange sum transfers keyInputs ->
    let r := fold_left body keyInputs (sum, transfers, txData) in
    r.1.1 = sum + sumOfAmounts keyInputs /\
    (forall key,
       r.1.2 !! key =
         match inputsOf key keyInputs with
         | [] => transfers !! key
         | _ :: _ =>
             Some (default 0 (transfers !! key) +
                   sumOfAmounts (inputsOf key keyInputs))
         end).
Proof.
  induction keyInputs as [| input keyInputs IH];
    intros sum transfers txData Hrange r; subst r.
  - simpl. split; [lia | reflexivity].
  - change (fold_left body (input :: keyInputs) (sum, transfers, txData))
      with (fold_left body keyInputs (body (sum, transfers, txData) input)).
    destruct (body_in_range sum transfers txData input keyInputs Hrange)
      as (transfers' & txData' & -> & Hrange' & Howned & Hnot).
    destruct (IH _ _ txData' Hrange') as [Hsum Hmap].
    split; [rewrite Hsum; simpl; lia |].
    intros key. rewrite Hmap, inputsOf_cons.
    destruct (isOwned input) eqn:Hown.
    + destruct (Howned eq_refl) as [-> _]. simpl.
      destruct (String.eqb_spec (ownerOf input) key) as [<- | Hne].
      * rewrite lookup_insert_eq. simpl.
        destruct (inputsOf (ownerOf input) keyInputs); simpl; f_equal; lia.
      * now rewrite lookup_insert_ne.
    + destruct (Hnot eq_refl) as [-> _]. reflexivity.
Qed.

Lemma inputsOf_none_owned (key : string) (keyInputs : list KeyInput) :
  (forall input, In input keyInputs -> isOwned input = false) ->
  inputsOf key keyInputs = [] /\ markersOf keyInputs = [].
Proof.
  unfold ownedBy, spendMarkers.
  induction keyInputs as [| input keyInputs IH]; intros Hnone; [auto |].
  simpl. rewrite (Hnone input) by now left. simpl.
  apply IH. intros i Hi. apply Hnone. now right.
Qed.

(** C5, as amended.  As long as no addition leaves the range in which
    [number] addition is exact (for every key, the magnitude of the amount
    pending plus the magnitudes of all the input amounts is at most 2^53),
    [processTransactionInputs] returns the sum of the amounts of all the
    inputs.  For an owner to whom the collaborator attributes some of the
    inputs, the transfer map afterwards holds the amount it held before
    (zero when it held none) plus the amounts of those inputs; every other
    key of the map is as before.  The spend-markers gain one (owner, key
    image) pair per owned input, in the order of the inputs, and inputs that
    are not owned change neither the map nor the accumulator. *)
Theorem processTransactionInputs_sums_and_marks_in_exact_range
    (keyInputs : list KeyInput) (transfers : gmap string Z)
    (blockHeight : Z) (txData : TransactionData) :
  exactRange transfers keyInputs ->
  let r :=
    processTransactionInputs getKeyImageOwner keyInputs transfers
      blockHeight txData in
  r.1.1 = sumOfAmounts keyInputs /\
  (forall key, inputsOf key keyInputs <> [] ->
     r.1.2 !! key =
       Some (default 0 (transfers !! key) +
             sumOfAmounts (inputsOf key keyInputs))) /\
  (forall key, inputsOf key keyInputs = [] ->
     r.1.2 !! key = transfers !! key) /\
  keyImagesToMarkSpent r.2 =
    (keyImagesToMarkSpent txData ++ markersOf keyInputs)%list /\
  transactionsToAdd r.2 = transactionsToAdd txData /\
  ((forall input, In input keyInputs -> isOwned input = false) ->
   r.1.2 = transfers /\ r.2 = txData).
Proof.
  intros Hrange r. subst r. unfold processTransactionInputs.
  apply exactRange_inExactRange in Hrange.
  destruct (inputs_loop keyInputs 0 transfers txData Hrange) as (Hsum & Hmap).
  destruct (inputs_loop_records keyInputs 0 transfers txData)
    as (Hspent & Htxs & Hsame & _).
  split; [rewrite Hsum; lia |].
  split.
  { intros key Hsome. rewrite Hmap.
    destruct (inputsOf key keyInputs); [contradiction | reflexivity]. }
  split; [exact Hsame |].
  split; [exact Hspent |].
  split; [exact Htxs |].
  intros Hnone. split.
  - apply map_eq. intros key. apply Hsame.
    apply (inputsOf_none_owned key keyInputs Hnone).
  - destruct (inputsOf_none_owned "" keyInputs Hnone) as [_ Hm].
    rewrite Hm, app_nil_r in Hspent.
    destruct (fold_left body keyInputs (0, transfers, txData)).2 as [txs spent];
      destruct txData as [txs0 spent0]; simpl in *.
    congruence.
Qed.

(** C10.  The scanning operations only append to the accumulator: the
    transactions to add and the key images to mark spent that were there
    before a call of [processTransactionInputs], [processTransaction] or
    [processCoinbaseTransaction] are there afterwards, in the same order, in
    front of whatever the call added. *)
Theorem scanning_is_append_only :
  (forall keyInputs transfers blockHeight txData,
     appendOnly txData
       (processTransactionInputs getKeyImageOwner keyInputs transfers
          blockHeight txData).2) /\
  (forall rawTX blockTimestamp blockHeight txData,
     appendOnly txData
       (processTransaction getKeyImageOwner rawTX blockTimestamp blockHeight
          txData)) /\
  (forall rawTX blockTimestamp blockHeight txData,
     appendOnly txData
       (processCoinbaseTransaction rawTX blockTimestamp blockHeight txData)).
Proof.
  assert (Hinputs : forall keyInputs transfers blockHeight txData,
     appendOnly txData
       (processTransactionInputs getKeyImageOwner keyInputs transfers
          blockHeight txData).2).
  { intros keyInputs transfers blockHeight txData.
    unfold processTransactionInputs.
    destruct (inputs_loop_records keyInputs 0 transfers txData)
      as (Hspent & Htxs & _ & _).
    split.
    - exists []. now rewrite Htxs, app_nil_r.
    - exists (markersOf keyInputs). exact Hspent. }
  split; [exact Hinputs |]. split.
  - intros rawTX blockTimestamp blockHeight txData.
    unfold processTransaction.
    specialize (Hinputs (keyInputs rawTX) ∅ blockHeight txData).
    destruct (processTransactionInputs getKeyImageOwner (keyInputs rawTX) ∅
                blockHeight txData) as [[sum t] d]; simpl in *.
    destruct Hinputs as [[txs Htxs] [spent Hspent]].
    destruct (isEmptyMap t); simpl.
    + split; [exists txs | exists spent]; assumption.
    + split; simpl.
      * eexists. rewrite Htxs. now rewrite <- app_assoc.
      * exists spent. assumption.
  - intros rawTX blockTimestamp blockHeight txData.
    unfold processCoinbaseTransaction, processTransactionOutputs.
    rewrite (proj2 (isEmptyMap_true ∅)) by reflexivity. simpl.
    split; exists []; now rewrite app_nil_r.
Qed.

End ScannerFacts.

Lemma processTransactionInputs_sums_and_marks_in_exact_range_witness :
  let keyInputs := keyInputs sampleTransaction in
  let r :=
    processTransactionInputs sampleOwner keyInputs ∅ 1 emptyTransactionData in
  r.1.1 = sumOfAmounts keyInputs /\
  (forall key, ownedBy sampleOwner key keyInputs <> [] ->
     r.1.2 !! key =
       Some (default 0 ((∅ : gmap string Z) !! key) +
             sumOfAmounts (ownedBy sampleOwner key keyInputs))) /\
  (forall key, ownedBy sampleOwner key keyInputs = [] ->
     r.1.2 !! key = (∅ : gmap string Z) !! key) /\
  keyImagesToMarkSpent r.2 =
    (keyImagesToMarkSpent emptyTransactionData ++
     spendMarkers sampleOwner keyInputs)%list /\
  transactionsToAdd r.2 = transactionsToAdd emptyTransactionData /\
  ((forall input, In input keyInputs -> owned sampleOwner input = false) ->
   r.1.2 = ∅ /\ r.2 = emptyTransactionData).
Proof.
  apply (processTransactionInputs_sums_and_marks_in_exact_range sampleOwner
           (keyInputs sampleTransaction) ∅ 1 emptyTransactionData).
  intros key. rewrite lookup_empty. vm_compute. discriminate.
Defined.

(** C5, as stated, fails beyond the exact range.  Three inputs of amounts
    2^53, 1 and 1, the first two owned by ["alice"]: the sum of the inputs
    is 2^53 + 2 and ["alice"]'s are 2^53 + 1, and the scan returns 2^53 and
    leaves 2^53 for ["alice"], since 2^53 + 1 is no [number] and rounds back
    to 2^53. *)
Lemma processTransactionInputs_sum_rounds_beyond_exact_range :
  let keyInputs :=
    [mkKeyInput (2 ^ 53) "img1"; mkKeyInput 1 "img2"; mkKeyInput 1 "other"] in
  let r :=
    processTransactionInputs sampleOwner keyInputs ∅ 1 emptyTransactionData in
  sumOfAmounts keyInputs = 2 ^ 53 + 2 /\
  r.1.1 = 2 ^ 53 /\
  r.1.1 <> sumOfAmounts keyInputs /\
  sumOfAmounts (ownedBy sampleOwner "alice" keyInputs) = 2 ^ 53 + 1 /\
  r.1.2 !! "alice" = Some (2 ^ 53) /\
  r.1.2 !! "alice" <>
    Some (default 0 ((∅ : gmap string Z) !! "alice") +
          sumOfAmounts (ownedBy sampleOwner "alice" keyInputs)).
Proof.
  vm_compute. repeat split; discriminate.
Qed.

(** C4.  On the sample transaction (inputs of 4, 9 and 3, one output of 5)
    [processTransaction] appends one record whose fee is 16, the sum of the
    inputs: the sum of the outputs that the output scan returns is 0, not 5,
    so the fee recorded is not the inputs minus the outputs, 11. *)
Theorem processTransaction_fee_ignores_outputs :
  let txData' :=
    processTransaction sampleOwner sampleTransaction 1540000000 1
      emptyTransactionData in
  sumOfAmounts (keyInputs sampleTransaction) = 16 /\
  sumOfOutputAmounts (keyOutputs sampleTransaction) = 5 /\
  map fee (transactionsToAdd txData') = [16] /\
  map fee (transactionsToAdd txData') <>
    [sumOfAmounts (keyInputs sampleTransaction) -
     sumOfOutputAmounts (keyOutputs sampleTransaction)].
Proof.
  vm_compute. repeat split. discriminate.
Qed.


(** C3.  [processTransactionOutputs] looks at no output: whatever the raw
    transaction holds, it returns the sum 0 and hands back the transfer map
    and the accumulator it was given.  On a transaction with one output of
    amount 5 the sum it returns is 0, not 5. *)
Theorem processTransactionOutputs_returns_zero_sum :
  (forall rawTX transfers blockHeight txData,
     processTransactionOutputs rawTX transfers blockHeight txData =
       (0, transfers, txData)) /\
  (processTransactionOutputs sampleTransaction ∅ 1 emptyTransactionData).1.1
    = 0 /\
  sumOfOutputAmounts (keyOutputs sampleTransaction) = 5 /\
  (processTransactionOutputs sampleTransaction ∅ 1 emptyTransactionData).1.1
    <> sumOfOutputAmounts (keyOutputs sampleTransaction).
Proof.
  repeat split. intros H. discriminate.
Qed.

(** ** Further properties of getBlocks *)

(** The runs of [getBlocks] with what the daemon answered: the goal is
    rewritten with the run that applies, the facts that select it are put in
    the context. *)
Ltac getBlocks_cases daemon this :=
  let Hbehind := fresh "Hbehind" in
  let Hahead := fresh "Hahead" in
  let Hreply := fresh "Hreply" in
  let Hts := fresh "Hts" in
  let Hcps := fresh "Hcps" in
  let Hheight := fresh "Hheight" in
  let first := fresh "first" in
  let rest := fresh "rest" in
  let err := fresh "err" in
  destruct (Z.lt_ge_cases (getLocalDaemonBlockCount daemon) (getHeight this))
    as [Hbehind | Hahead];
  [ rewrite (getBlocks_node_behind_run daemon this Hbehind)
  | destruct (getWalletSyncData daemon (checkpoints this) (startHeight this)
                (startTimestamp this))
      as [[| first rest] | err] eqn:Hreply;
    [ rewrite (getBlocks_empty_batch_run daemon this Hahead Hreply), ?Hreply
    | destruct (Z.eq_dec (startTimestamp this) 0) as [Hts | Hts];
      [ destruct (decide (checkpoints this = [])) as [Hcps | Hcps];
        [ destruct (Z.eq_dec (blockHeight first) (startHeight this))
            as [Hheight | Hheight];
          [ rewrite (getBlocks_pass_run daemon this first rest Hahead Hreply
                       Hts (or_intror Hheight)), ?Hreply
          | rewrite (getBlocks_mismatch_run daemon this first rest Hahead
                       Hreply Hts Hcps Hheight), ?Hreply ]
        | rewrite (getBlocks_pass_run daemon this first rest Hahead Hreply
                     Hts (or_introl Hcps)), ?Hreply ]
      | rewrite (getBlocks_pin_run daemon this first rest Hahead Hreply Hts),
          ?Hreply ]
    | rewrite (getBlocks_rejected_run daemon this err Hahead Hreply),
        ?Hreply ] ].

(** X1.  No call of [getBlocks] touches the synchronization status or the
    private view key: the synced height and the checkpoint window are the
    same after the call, whether it returns or throws. *)
Theorem getBlocks_keeps_status_and_view_key
    (daemon : IDaemon) (this : WalletSynchronizer) :
  let r := call (getBlocks daemon) this in
  synchronizationStatus (after r) = synchronizationStatus this /\
  privateViewKey (after r) = privateViewKey this /\
  getHeight (after r) = getHeight this /\
  checkpoints (after r) = checkpoints this.
Proof.
  intros r. subst r.
  destruct (getBlocks_run daemon this); unfold after; simpl; auto.
Qed.

(** X2.  The batch [getBlocks] returns is either empty or, block for block,
    the batch with which the daemon answered the request for the checkpoint
    window, start height and start timestamp the synchronizer had on
    entry. *)
Theorem getBlocks_returns_daemon_batch
    (daemon : IDaemon) (this : WalletSynchronizer) (blocks : list Block) :
  completion (call (getBlocks daemon) this) = Eff.Returns blocks ->
  blocks = [] \/
  (getHeight this <= getLocalDaemonBlockCount daemon /\
   getWalletSyncData daemon (checkpoints this) (startHeight this)
     (startTimestamp this) = Resolves blocks).
Proof.
  getBlocks_cases daemon this; unfold completion; simpl; intros Hret;
    try discriminate; injection Hret as <-; auto.
Qed.

Lemma getBlocks_returns_daemon_batch_witness :
  [sampleBlock 200000; sampleBlock 200001] = [] \/
  (getHeight (constructor 0 200000 "viewkey") <=
     getLocalDaemonBlockCount (sampleDaemon 200000) /\
   getWalletSyncData (sampleDaemon 200000)
     (checkpoints (constructor 0 200000 "viewkey")) 200000 0 =
     Resolves [sampleBlock 200000; sampleBlock 200001]).
Proof.
  apply (getBlocks_returns_daemon_batch (sampleDaemon 200000)
           (constructor 0 200000 "viewkey")
           [sampleBlock 200000; sampleBlock 200001]).
  reflexivity.
Defined.

(** X3.  What a call of [getBlocks] asks of its collaborators: first the
    daemon's local block count; when the daemon is behind, nothing else;
    otherwise one sync request, with the checkpoint window, start height
    and start timestamp of entry; and after it at most one conversion
    notification, sent only when the start timestamp was not zero and the
    batch was not empty. *)
Theorem getBlocks_calls_shape (daemon : IDaemon) (this : WalletSynchronizer) :
  let r := call (getBlocks daemon) this in
  let count := EvGetLocalDaemonBlockCount (getLocalDaemonBlockCount daemon) in
  let reply :=
    getWalletSyncData daemon (checkpoints this) (startHeight this)
      (startTimestamp this) in
  let request :=
    EvGetWalletSyncData (checkpoints this) (startHeight this)
      (startTimestamp this) reply in
  (getLocalDaemonBlockCount daemon < getHeight this /\ calls r = [count]) \/
  (getHeight this <= getLocalDaemonBlockCount daemon /\
   (calls r = [count; request] \/
    exists first rest,
      reply = Resolves (first :: rest) /\
      startTimestamp this <> 0 /\
      calls r =
        [count; request;
         EvConvertSyncTimestampToHeight 0 (blockHeight first)])).
Proof.
  intros r count reply request. subst r count request reply.
  getBlocks_cases daemon this; unfold calls; simpl; eauto 10.
Qed.

(** X4.  Once the start timestamp is zero, [getBlocks] is read-only on the
    synchronizer: whatever the daemon answers, and also when the call
    throws, every field is what it was. *)
Theorem getBlocks_read_only_once_resolved
    (daemon : IDaemon) (this : WalletSynchronizer) :
  startTimestamp this = 0 ->
  after (call (getBlocks daemon) this) = this.
Proof.
  intros Hts.
  destruct (getBlocks_run daemon this); unfold after; simpl; auto.
  contradiction.
Qed.

Lemma getBlocks_read_only_once_resolved_witness :
  after (call (getBlocks (sampleDaemon 200001))
           (constructor 0 200000 "viewkey")) =
    constructor 0 200000 "viewkey".
Proof.
  apply (getBlocks_read_only_once_resolved (sampleDaemon 200001)
           (constructor 0 200000 "viewkey")).
  reflexivity.
Defined.

(** X5.  With a checkpoint window that is not empty and a daemon that is
    not behind, [getBlocks] hands the caller the batch the daemon resolved
    with, whatever the heights of its blocks: a batch that starts at or
    below the synced height (a fork) is returned like any other, nothing is
    thrown. *)
Theorem getBlocks_with_checkpoints_passes_batch
    (daemon : IDaemon) (this : WalletSynchronizer) (blocks : list Block) :
  checkpoints this <> [] ->
  getHeight this <= getLocalDaemonBlockCount daemon ->
  getWalletSyncData daemon (checkpoints this) (startHeight this)
    (startTimestamp this) = Resolves blocks ->
  completion (call (getBlocks daemon) this) = Eff.Returns blocks.
Proof.
  intros Hwindow Hge Hblocks.
  getBlocks_cases daemon this; unfold completion; simpl;
    try (exfalso; lia); try contradiction; congruence.
Qed.

Lemma getBlocks_with_checkpoints_passes_batch_witness :
  completion (call (getBlocks (mkDaemon 700000 (fun _ _ _ =>
                       Resolves [sampleBlock 599990])))
                syncedWallet) =
    Eff.Returns [sampleBlock 599990].
Proof.
  apply (getBlocks_with_checkpoints_passes_batch
           (mkDaemon 700000 (fun _ _ _ => Resolves [sampleBlock 599990]))
           syncedWallet [sampleBlock 599990]).
  - discriminate.
  - discriminate.
  - reflexivity.
Defined.

(** What the pinning call leaves behind, for the calls after it. *)
Lemma getBlocks_pinned_state
    (daemon : IDaemon) (this : WalletSynchronizer)
    (first : Block) (rest : list Block) :
  startTimestamp this <> 0 ->
  completion (call (getBlocks daemon) this) = Eff.Returns (first :: rest) ->
  after (call (getBlocks daemon) this) = pinned (blockHeight first) this.
Proof.
  intros Hts.
  destruct (getBlocks_run daemon this); unfold completion, after; simpl;
    intros Hret; try discriminate; try contradiction.
  now injection Hret as -> ->.
Qed.

(** A call on a synchronizer whose start timestamp is zero. *)
Lemma getBlocks_resolved_calls (daemon : IDaemon) (this : WalletSynchronizer) :
  startTimestamp this = 0 ->
  getHeight this <= getLocalDaemonBlockCount daemon ->
  calls (call (getBlocks daemon) this) =
    [EvGetLocalDaemonBlockCount (getLocalDaemonBlockCount daemon);
     EvGetWalletSyncData (checkpoints this) (startHeight this)
       (startTimestamp this)
       (getWalletSyncData daemon (checkpoints this) (startHeight this)
          (startTimestamp this))].
Proof.
  intros Hzero Hge.
  getBlocks_cases daemon this; unfold calls; simpl;
    try reflexivity; try contradiction; exfalso; lia.
Qed.

Lemma getBlocks_first_sync_completion
    (daemon : IDaemon) (this : WalletSynchronizer)
    (first : Block) (rest : list Block) :
  startTimestamp this = 0 ->
  checkpoints this = [] ->
  getHeight this <= getLocalDaemonBlockCount daemon ->
  getWalletSyncData daemon (checkpoints this) (startHeight this)
    (startTimestamp this) = Resolves (first :: rest) ->
  completion (call (getBlocks daemon) this) =
    if decide (blockHeight first = startHeight this)
    then Eff.Returns (first :: rest)
    else Eff.Throws
           (unexpectedHeightMessage (startHeight this) (blockHeight first)).
Proof.
  intros Hzero Hwindow Hge Hbatch.
  getBlocks_cases daemon this; unfold completion; simpl;
    try (exfalso; lia); try contradiction; try discriminate;
    injection Hbatch as <- <-;
    destruct (decide (blockHeight first0 = startHeight this));
    congruence.
Qed.

(** X6.  The call after the pin resumes from the pinned height: when a call
    started from a timestamp has returned a batch, the next call (its daemon
    not behind) sends exactly one sync request, with the same checkpoint
    window, the height of the first block of that batch as start height and
    0 as start timestamp, and sends no notification. *)
Theorem getBlocks_after_pin_requests_pinned_height
    (daemon next : IDaemon) (this : WalletSynchronizer)
    (first : Block) (rest : list Block) :
  startTimestamp this <> 0 ->
  completion (call (getBlocks daemon) this) = Eff.Returns (first :: rest) ->
  getHeight this <= getLocalDaemonBlockCount next ->
  calls (call (getBlocks next) (after (call (getBlocks daemon) this))) =
    [EvGetLocalDaemonBlockCount (getLocalDaemonBlockCount next);
     EvGetWalletSyncData (checkpoints this) (blockHeight first) 0
       (getWalletSyncData next (checkpoints this) (blockHeight first) 0)].
Proof.
  intros Hts Hret Hge.
  rewrite (getBlocks_pinned_state daemon this first rest Hts Hret).
  exact (getBlocks_resolved_calls next (pinned (blockHeight first) this)
           eq_refl Hge).
Qed.

Lemma getBlocks_after_pin_requests_pinned_height_witness :
  calls (call (getBlocks (sampleDaemon 200125))
           (after (call (getBlocks (sampleDaemon 200123))
                     (constructor 1540000000 0 "viewkey")))) =
    [EvGetLocalDaemonBlockCount 500000;
     EvGetWalletSyncData [] 200123 0
       (Resolves [sampleBlock 200125; sampleBlock 200126])].
Proof.
  apply (getBlocks_after_pin_requests_pinned_height (sampleDaemon 200123)
           (sampleDaemon 200125) (constructor 1540000000 0 "viewkey")
           (sampleBlock 200123) [sampleBlock 200124]).
  - discriminate.
  - reflexivity.
  - discriminate.
Defined.

(** X7.  The first-sync check follows the pin.  When the call that pinned
    the start height ran on an empty checkpoint window and no block hash was
    stored since, a next batch whose first block is not at the pinned height
    makes [getBlocks] throw, with the pinned height as the expected one; a
    next batch that starts at the pinned height is returned. *)
Theorem getBlocks_after_pin_checks_pinned_height
    (daemon next : IDaemon) (this : WalletSynchronizer)
    (first : Block) (rest : list Block) (first' : Block) (rest' : list Block) :
  startTimestamp this <> 0 ->
  completion (call (getBlocks daemon) this) = Eff.Returns (first :: rest) ->
  checkpoints this = [] ->
  getHeight this <= getLocalDaemonBlockCount next ->
  getWalletSyncData next [] (blockHeight first) 0 =
    Resolves (first' :: rest') ->
  completion (call (getBlocks next) (after (call (getBlocks daemon) this))) =
    if decide (blockHeight first' = blockHeight first)
    then Eff.Returns (first' :: rest')
    else Eff.Throws
           (unexpectedHeightMessage (blockHeight first) (blockHeight first')).
Proof.
  intros Hts Hret Hwindow Hge Hnext.
  rewrite (getBlocks_pinned_state daemon this first rest Hts Hret).
  rewrite <- Hwindow in Hnext.
  exact (getBlocks_first_sync_completion next (pinned (blockHeight first) this)
           first' rest' eq_refl Hwindow Hge Hnext).
Qed.

Lemma getBlocks_after_pin_checks_pinned_height_witness :
  completion (call (getBlocks (sampleDaemon 200125))
                (after (call (getBlocks (sampleDaemon 200123))
                          (constructor 1540000000 0 "viewkey")))) =
    Eff.Throws (unexpectedHeightMessage 200123 200125).
Proof.
  apply (getBlocks_after_pin_checks_pinned_height (sampleDaemon 200123)
           (sampleDaemon 200125) (constructor 1540000000 0 "viewkey")
           (sampleBlock 200123) [sampleBlock 200124]
           (sampleBlock 200125) [sampleBlock 200126]).
  - discriminate.
  - reflexivity.
  - reflexivity.
  - discriminate.
  - reflexivity.
Defined.

(** ** The life of a synchronizer *)

Lemma stepCall_notifications (c : MethodCall) (w : Eff.World) :
  (notifications (Eff.trace (stepCall c w)) = notifications (Eff.trace w) /\
   startTimestamp (Eff.this (stepCall c w)) = startTimestamp (Eff.this w)) \/
  (exists height,
     notifications (Eff.trace (stepCall c w)) =
       (notifications (Eff.trace w) ++ [(0, height)])%list /\
     startTimestamp (Eff.this w) <> 0 /\
     startTimestamp (Eff.this (stepCall c w)) = 0).
Proof.
  destruct c as [daemon | h hash]; [| left; simpl; auto].
  rewrite stepCall_getBlocks. simpl. rewrite notifications_app.
  destruct (getBlocks_run daemon (Eff.this w)); unfold after, calls; simpl;
    rewrite ?app_nil_r; auto.
  right. eauto.
Qed.

Lemma runCalls_notifications (cs : list MethodCall) :
  forall w : Eff.World,
  exists sent,
    notifications (Eff.trace (runCalls cs w)) =
      (notifications (Eff.trace w) ++ sent)%list /\
    (length sent <= 1)%nat /\
    (startTimestamp (Eff.this w) = 0 -> sent = []) /\
    (forall timestamp height, In (timestamp, height) sent -> timestamp = 0).
Proof.
  induction cs as [| c cs IH]; intros w.
  - exists []. simpl. rewrite app_nil_r. repeat split; auto.
    intros ? ? [].
  - change (runCalls (c :: cs) w) with (runCalls cs (stepCall c w)).
    destruct (stepCall_notifications c w) as [[Hsame Hts] | (h & Hsent & Hnz & Hz)].
    + destruct (IH (stepCall c w)) as (sent & Heq & Hlen & Hnone & Hzero).
      exists sent. rewrite Heq, Hsame. repeat split; auto.
      intros H0. apply Hnone. congruence.
    + destruct (runCalls_resolved_stable cs (stepCall c w) Hz) as [_ Hstable].
      exists [(0, h)]. rewrite Hstable, Hsent. repeat split; auto.
      * intros H0. contradiction.
      * intros timestamp height [Heq | []]. congruence.
Qed.

(** X8.  Over the whole life of a synchronizer, whatever methods are called
    and whatever the daemons answer, the key-management collaborator is sent
    at most one conversion notification; its timestamp argument is 0; and a
    synchronizer constructed with start timestamp 0 never sends one. *)
Theorem lifetime_notifies_at_most_once
    (cs : list MethodCall) (this : WalletSynchronizer) :
  (length (notifications (Eff.trace (lifetime cs this))) <= 1)%nat /\
  (forall timestamp height,
     In (timestamp, height) (notifications (Eff.trace (lifetime cs this))) ->
     timestamp = 0) /\
  (startTimestamp this = 0 ->
   notifications (Eff.trace (lifetime cs this)) = []).
Proof.
  unfold lifetime.
  destruct (runCalls_notifications cs (Eff.mkWorld this []))
    as (sent & Heq & Hlen & Hnone & Hzero).
  simpl in Heq. rewrite Heq. auto.
Qed.

(** X9.  No sequence of method calls changes the private view key, and the
    start height changes only while the start timestamp is not zero: a
    synchronizer whose start timestamp is 0 keeps its start height for
    life. *)
Theorem lifetime_keeps_view_key_and_resolved_height
    (cs : list MethodCall) (this : WalletSynchronizer) :
  privateViewKey (Eff.this (lifetime cs this)) = privateViewKey this /\
  (startTimestamp this = 0 ->
   startHeight (Eff.this (lifetime cs this)) = startHeight this /\
   startTimestamp (Eff.this (lifetime cs this)) = 0).
Proof.
  unfold lifetime. generalize (@nil Event).
  revert this. induction cs as [| c cs IH]; intros this tr; [simpl; auto |].
  change (runCalls (c :: cs) (Eff.mkWorld this tr))
    with (runCalls cs (stepCall c (Eff.mkWorld this tr))).
  destruct c as [daemon | h hash].
  - rewrite stepCall_getBlocks. simpl Eff.this. simpl Eff.trace.
    destruct (IH (after (call (getBlocks daemon) this))
                (tr ++ calls (call (getBlocks daemon) this))%list)
      as [Hkey Hres].
    rewrite Hkey.
    destruct (getBlocks_run daemon this); unfold after in *; simpl in *;
      (split; [reflexivity |]); intros Hz; auto; contradiction.
  - simpl stepCall.
    destruct (IH (storeBlockHash h hash this) tr) as [Hkey Hres].
    rewrite Hkey. split; [reflexivity |]. intros Hz. apply Hres. exact Hz.
Qed.

(** ** Further properties of the scanner *)

Lemma totalOfTransfers_insert (transfers : gmap string Z) (key : string)
    (amount : Z) :
  totalOfTransfers (<[key := amount]> transfers) =
    totalOfTransfers transfers - default 0 (transfers !! key) + amount.
Proof.
  unfold totalOfTransfers.
  assert (Hcomm : forall (m : gmap string Z) (j1 j2 : string) (z1 z2 y : Z),
            j1 <> j2 -> m !! j1 = Some z1 -> m !! j2 = Some z2 ->
            z1 + (z2 + y) = z2 + (z1 + y)) by (intros; lia).
  rewrite <- insert_delete_eq.
  rewrite (map_fold_insert_L _ _ _ _ _ (Hcomm _))
    by apply lookup_delete_eq.
  destruct (transfers !! key) as [old |] eqn:Hold; simpl.
  - rewrite (map_fold_delete_L _ _ key old transfers (Hcomm _) Hold). lia.
  - rewrite delete_id by exact Hold. lia.
Qed.

Lemma sumOfAmounts_Permutation (l l' : list KeyInput) :
  Permutation l l' -> sumOfAmounts l = sumOfAmounts l'.
Proof.
  induction 1; simpl; lia.
Qed.

Lemma magnitude_Permutation (l l' : list KeyInput) :
  Permutation l l' -> magnitude l = magnitude l'.
Proof.
  induction 1; simpl; lia.
Qed.

Lemma filter_Permutation_bool {A} (f : A -> bool) (l l' : list A) :
  Permutation l l' -> Permutation (List.filter f l) (List.filter f l').
Proof.
  induction 1 as [| x l l' _ IH | x y l | l l' l'' _ IH1 _ IH2]; simpl.
  - constructor.
  - destruct (f x); [now constructor | exact IH].
  - destruct (f x), (f y); try reflexivity. constructor.
  - now transitivity (List.filter f l').
Qed.

Section ScannerLaws.

Variable getKeyImageOwner : string -> bool * string.

Local Abbreviation scanInputs := (processTransactionInputs getKeyImageOwner).
Local Abbreviation scanBody := (processTransactionInputs_body getKeyImageOwner).
Local Abbreviation isOwned := (owned getKeyImageOwner).
Local Abbreviation ownerOf := (owner getKeyImageOwner).
Local Abbreviation inputsOf := (ownedBy getKeyImageOwner).
Local Abbreviation markersOf := (spendMarkers getKeyImageOwner).

(** The running sum does not influence the map and the accumulator. *)
Lemma inputs_loop_sum_irrelevant (keyInputs : list KeyInput) :
  forall (sum sum' : Z) (transfers : gmap string Z) (txData : TransactionData),
    (fold_left scanBody keyInputs (sum, transfers, txData)).1.2 =
      (fold_left scanBody keyInputs (sum', transfers, txData)).1.2 /\
    (fold_left scanBody keyInputs (sum, transfers, txData)).2 =
      (fold_left scanBody keyInputs (sum', transfers, txData)).2.
Proof.
  induction keyInputs as [| input keyInputs IH];
    intros sum sum' transfers txData; [simpl; auto |].
  change (fold_left scanBody (input :: keyInputs) (sum, transfers, txData))
    with (fold_left scanBody keyInputs
            (scanBody (sum, transfers, txData) input)).
  change (fold_left scanBody (input :: keyInputs) (sum', transfers, txData))
    with (fold_left scanBody keyInputs
            (scanBody (sum', transfers, txData) input)).
  destruct (isOwned input) eqn:Hown.
  - rewrite !body_owned by exact Hown. apply IH.
  - rewrite !body_not_owned by exact Hown. apply IH.
Qed.

(** The exact range holds on after a first batch of the inputs. *)
Lemma inputs_loop_range (first second : list KeyInput) :
  forall (sum : Z) (transfers : gmap string Z) (txData : TransactionData),
    inExactRange sum transfers (first ++ second) ->
    inExactRange (fold_left scanBody first (sum, transfers, txData)).1.1
      (fold_left scanBody first (sum, transfers, txData)).1.2 second.
Proof.
  induction first as [| input first IH]; intros sum transfers txData Hrange.
  - exact Hrange.
  - change (fold_left scanBody (input :: first) (sum, transfers, txData))
      with (fold_left scanBody first
              (scanBody (sum, transfers, txData) input)).
    destruct (body_in_range getKeyImageOwner sum transfers txData input
                (first ++ second) Hrange)
      as (transfers' & txData' & -> & Hrange' & _ & _).
    apply IH. exact Hrange'.
Qed.

(** X10.  In the exact range, scanning the inputs in two batches is
    scanning them at once: if no addition on [first ++ second] can leave
    the range in which [number] addition is exact, scanning
    [first ++ second] gives the map and the accumulator obtained by scanning
    [second] on the map and accumulator that scanning [first] left, and the
    sum of the two sums. *)
Theorem processTransactionInputs_app
    (first second : list KeyInput) (transfers : gmap string Z)
    (blockHeight : Z) (txData : TransactionData) :
  exactRange transfers (first ++ second) ->
  let r1 := scanInputs first transfers blockHeight txData in
  let r2 := scanInputs second r1.1.2 blockHeight r1.2 in
  scanInputs (first ++ second) transfers blockHeight txData =
    (r1.1.1 + r2.1.1, r2.1.2, r2.2).
Proof.
  intros Hrange r1 r2. subst r2 r1. unfold processTransactionInputs.
  apply exactRange_inExactRange in Hrange.
  pose proof (inputs_loop_range first second 0 transfers txData Hrange)
    as Hsecond.
  rewrite fold_left_app.
  destruct (fold_left scanBody first (0, transfers, txData))
    as [[sum1 transfers1] txData1]; cbn [fst snd] in *.
  destruct (inputs_loop_sum_irrelevant second sum1 0 transfers1 txData1)
    as [Hmap Hdata].
  destruct (inputs_loop getKeyImageOwner second sum1 transfers1 txData1
              Hsecond) as [Hsum _].
  destruct (inputs_loop getKeyImageOwner second 0 transfers1 txData1
              (exactRange_inExactRange _ _ (proj2 Hsecond))) as [Hsum0 _].
  rewrite Hsum0, <- Hmap, <- Hdata.
  destruct (fold_left scanBody second (sum1, transfers1, txData1))
    as [[s t] d]; cbn [fst snd] in *.
  subst s.
  replace (sum1 + (0 + sumOfAmounts second))
    with (sum1 + sumOfAmounts second) by lia.
  reflexivity.
Qed.

(** X11.  In the exact range, the order of the inputs does not matter for
    the amounts: scanning a permutation of the inputs returns the same sum
    and a transfer map with the same amount under every key, leaves the
    transactions to add alone, and adds the same spend-markers, up to their
    order. *)
Theorem processTransactionInputs_Permutation
    (keyInputs keyInputs' : list KeyInput) (transfers : gmap string Z)
    (blockHeight : Z) (txData : TransactionData) :
  Permutation keyInputs keyInputs' ->
  exactRange transfers keyInputs ->
  let r := scanInputs keyInputs transfers blockHeight txData in
  let r' := scanInputs keyInputs' transfers blockHeight txData in
  r.1.1 = r'.1.1 /\
  (forall key, r.1.2 !! key = r'.1.2 !! key) /\
  transactionsToAdd r.2 = transactionsToAdd r'.2 /\
  Permutation (keyImagesToMarkSpent r.2) (keyImagesToMarkSpent r'.2).
Proof.
  intros Hperm Hrange r r'. subst r r'. unfold processTransactionInputs.
  assert (Hrange' : exactRange transfers keyInputs').
  { intros key. rewrite <- (magnitude_Permutation _ _ Hperm). apply Hrange. }
  apply exactRange_inExactRange in Hrange, Hrange'.
  destruct (inputs_loop getKeyImageOwner keyInputs 0 transfers txData Hrange)
    as (Hsum & Hmap).
  destruct (inputs_loop getKeyImageOwner keyInputs' 0 transfers txData Hrange')
    as (Hsum' & Hmap').
  destruct (inputs_loop_records getKeyImageOwner keyInputs 0 transfers txData)
    as (Hspent & Htxs & _ & _).
  destruct (inputs_loop_records getKeyImageOwner keyInputs' 0 transfers txData)
    as (Hspent' & Htxs' & _ & _).
  split; [| split; [| split]].
  - rewrite Hsum, Hsum'. now rewrite (sumOfAmounts_Permutation _ _ Hperm).
  - intros key. rewrite Hmap, Hmap'.
    assert (Hkey : Permutation (inputsOf key keyInputs)
                     (inputsOf key keyInputs'))
      by (apply filter_Permutation_bool; exact Hperm).
    rewrite (sumOfAmounts_Permutation _ _ Hkey).
    destruct (inputsOf key keyInputs) as [| i l] eqn:H1;
      destruct (inputsOf key keyInputs') as [| i' l'] eqn:H2;
      try reflexivity.
    + apply Permutation_nil in Hkey. discriminate.
    + symmetry in Hkey. apply Permutation_nil in Hkey. discriminate.
  - congruence.
  - rewrite Hspent, Hspent'. apply Permutation_app_head.
    unfold spendMarkers. apply Permutation_map.
    apply filter_Permutation_bool. exact Hperm.
Qed.

(** The total of the map along the loop, in the exact range. *)
Lemma inputs_loop_total (keyInputs : list KeyInput) :
  forall (sum : Z) (transfers : gmap string Z) (txData : TransactionData),
    inExactRange sum transfers keyInputs ->
    totalOfTransfers (fold_left scanBody keyInputs (sum, transfers, txData)).1.2
      = totalOfTransfers transfers +
        sumOfAmounts (List.filter isOwned keyInputs).
Proof.
  induction keyInputs as [| input keyInputs IH];
    intros sum transfers txData Hrange.
  - simpl. lia.
  - change (fold_left scanBody (input :: keyInputs) (sum, transfers, txData))
      with (fold_left scanBody keyInputs
              (scanBody (sum, transfers, txData) input)).
    destruct (body_in_range getKeyImageOwner sum transfers txData input
                keyInputs Hrange)
      as (transfers' & txData' & -> & Hrange' & Howned & Hnot).
    rewrite (IH _ _ txData' Hrange'). simpl List.filter.
    destruct (isOwned input) eqn:Hown.
    + destruct (Howned eq_refl) as [-> _].
      rewrite totalOfTransfers_insert. simpl. lia.
    + destruct (Hnot eq_refl) as [-> _]. reflexivity.
Qed.

(** X12.  In the exact range, scanning the inputs neither creates nor loses
    value: the total of the transfer map grows by exactly the amounts of the
    inputs the collaborator reports as owned, each counted once. *)
Theorem processTransactionInputs_conserves_owned_value
    (keyInputs : list KeyInput) (transfers : gmap string Z)
    (blockHeight : Z) (txData : TransactionData) :
  exactRange transfers keyInputs ->
  totalOfTransfers (scanInputs keyInputs transfers blockHeight txData).1.2 =
    totalOfTransfers transfers + sumOfAmounts (List.filter isOwned keyInputs).
Proof.
  intros Hrange. unfold processTransactionInputs.
  apply inputs_loop_total. apply exactRange_inExactRange. exact Hrange.
Qed.

(** X13.  Which keys the transfer map holds after the scan: the keys it held
    before, and the owners the collaborator reports for the owned inputs;
    no other key appears and none disappears. *)
Theorem processTransactionInputs_keys
    (keyInputs : list KeyInput) (transfers : gmap string Z)
    (blockHeight : Z) (txData : TransactionData) (key : string) :
  is_Some ((scanInputs keyInputs transfers blockHeight txData).1.2 !! key) <->
  is_Some (transfers !! key) \/
  exists input,
    In input keyInputs /\ isOwned input = true /\ ownerOf input = key.
Proof.
  unfold processTransactionInputs.
  destruct (inputs_loop_records getKeyImageOwner keyInputs 0 transfers txData)
    as (_ & _ & Hsame & Hsome).
  assert (Hin : forall input,
            In input (inputsOf key keyInputs) <->
            In input keyInputs /\ isOwned input = true /\ ownerOf input = key).
  { intros input. unfold ownedBy. rewrite filter_In, andb_true_iff.
    rewrite String.eqb_eq. tauto. }
  destruct (inputsOf key keyInputs) as [| input l] eqn:Hkey.
  - rewrite (Hsame key Hkey).
    split; [auto |]. intros [H | (input & H)]; [exact H |].
    apply Hin in H. destruct H.
  - split.
    + intros _. right. exists input. apply Hin. now left.
    + intros _. apply Hsome. rewrite Hkey. discriminate.
Qed.

(** The loop keeps amounts that are not negative so. *)
Lemma inputs_loop_nonnegative (keyInputs : list KeyInput) :
  forall (sum : Z) (transfers : gmap string Z) (txData : TransactionData),
    0 <= sum ->
    (forall input, In input keyInputs -> 0 <= ki_amount input) ->
    (forall key amount, transfers !! key = Some amount -> 0 <= amount) ->
    0 <= (fold_left scanBody keyInputs (sum, transfers, txData)).1.1 /\
    forall key amount,
      (fold_left scanBody keyInputs (sum, transfers, txData)).1.2 !! key =
        Some amount ->
      0 <= amount.
Proof.
  induction keyInputs as [| input keyInputs IH];
    intros sum transfers txData Hsum Hinputs Hmap; [simpl; auto |].
  change (fold_left scanBody (input :: keyInputs) (sum, transfers, txData))
    with (fold_left scanBody keyInputs
            (scanBody (sum, transfers, txData) input)).
  assert (Hinput : 0 <= ki_amount input) by (apply Hinputs; now left).
  assert (Hrest : forall i, In i keyInputs -> 0 <= ki_amount i)
    by (intros i Hi; apply Hinputs; now right).
  assert (Hsum' : 0 <= numberAdd sum (ki_amount input))
    by (apply roundToNumber_nonnegative; lia).
  destruct (isOwned input) eqn:Hown.
  - rewrite body_owned by exact Hown.
    apply IH; [exact Hsum' | exact Hrest |].
    intros key amount.
    destruct (decide (ownerOf input = key)) as [<- | Hne].
    + rewrite lookup_insert_eq. intros Heq. injection Heq as <-.
      apply roundToNumber_nonnegative.
      destruct (transfers !! ownerOf input) as [old |] eqn:Hold; simpl;
        [specialize (Hmap _ _ Hold) |]; lia.
    + rewrite lookup_insert_ne by exact Hne. apply Hmap.
  - rewrite body_not_owned by exact Hown.
    apply IH; assumption.
Qed.

(** X14.  With amounts that are not negative, in the inputs and in the map
    given, the sum returned and every amount of the map returned are not
    negative. *)
Theorem processTransactionInputs_nonnegative
    (keyInputs : list KeyInput) (transfers : gmap string Z)
    (blockHeight : Z) (txData : TransactionData) :
  (forall input, In input keyInputs -> 0 <= ki_amount input) ->
  (forall key amount, transfers !! key = Some amount -> 0 <= amount) ->
  let r := scanInputs keyInputs transfers blockHeight txData in
  0 <= r.1.1 /\
  forall key amount, r.1.2 !! key = Some amount -> 0 <= amount.
Proof.
  intros Hinputs Hmap r. subst r. unfold processTransactionInputs.
  apply inputs_loop_nonnegative; [lia | exact Hinputs | exact Hmap].
Qed.

(** X15.  [processTransaction] records a transaction exactly when the
    collaborator owns one of its inputs.  With no owned input the
    accumulator comes back as it was given.  With an owned input one record
    is appended and the spend-markers of the owned inputs are added; and if
    the magnitudes of the input amounts add up to at most 2^53, the record's
    transfers hold, for each owner, the sum of the amounts of that owner's
    inputs and nothing else, counted from zero whatever earlier transactions
    of the batch recorded, and its fee is the sum of the amounts of all the
    inputs, the output scan returning 0. *)
Theorem processTransaction_records_owned_inputs
    (rawTX : RawTransaction) (blockTimestamp blockHeight : Z)
    (txData : TransactionData) :
  let txData' :=
    processTransaction getKeyImageOwner rawTX blockTimestamp blockHeight
      txData in
  ((forall input, In input (keyInputs rawTX) -> isOwned input = false) ->
   txData' = txData) /\
  ((exists input, In input (keyInputs rawTX) /\ isOwned input = true) ->
   exists tx,
     transactionsToAdd txData' = (transactionsToAdd txData ++ [tx])%list /\
     keyImagesToMarkSpent txData' =
       (keyImagesToMarkSpent txData ++ markersOf (keyInputs rawTX))%list /\
     (magnitude (keyInputs rawTX) <= maxExact ->
      fee tx = sumOfAmounts (keyInputs rawTX) /\
      forall key,
        tx_transfers tx !! key =
          match inputsOf key (keyInputs rawTX) with
          | [] => None
          | _ :: _ => Some (sumOfAmounts (inputsOf key (keyInputs rawTX)))
          end)).
Proof.
  intros txData'. subst txData'. unfold processTransaction.
  unfold processTransactionInputs, processTransactionOutputs.
  destruct (inputs_loop_records getKeyImageOwner (keyInputs rawTX) 0 ∅ txData)
    as (Hspent & Htxs & Hsame & Hsome).
  pose proof (inputs_loop getKeyImageOwner (keyInputs rawTX) 0 ∅ txData)
    as Hexact.
  destruct (fold_left scanBody (keyInputs rawTX) (0, ∅, txData))
    as [[sum t] d]; simpl in *.
  split.
  - intros Hnone.
    assert (Ht : t = ∅).
    { apply map_eq. intros key. apply Hsame.
      apply (inputsOf_none_owned getKeyImageOwner key (keyInputs rawTX) Hnone). }
    rewrite (proj2 (isEmptyMap_true t) Ht). simpl.
    destruct (inputsOf_none_owned getKeyImageOwner "" (keyInputs rawTX) Hnone)
      as [_ Hm].
    rewrite Hm, app_nil_r in Hspent.
    destruct d, txData; simpl in *. congruence.
  - intros (input & Hin & Hown).
    assert (Hne : t <> ∅).
    { intros ->.
      assert (Hmem : In input (inputsOf (ownerOf input) (keyInputs rawTX))).
      { unfold ownedBy. apply filter_In. split; [exact Hin |].
        rewrite Hown. simpl. apply String.eqb_refl. }
      destruct (Hsome (ownerOf input)) as [amount Hamount].
      - intros Hnil. rewrite Hnil in Hmem. destruct Hmem.
      - rewrite lookup_empty in Hamount. discriminate. }
    destruct (isEmptyMap t) eqn:Hempty.
    { apply isEmptyMap_true in Hempty. contradiction. }
    simpl. eexists. rewrite Htxs, Hspent.
    split; [reflexivity |]. split; [reflexivity |].
    intros Hmagnitude. simpl.
    destruct Hexact as [Hsum Hmap].
    { split; [simpl; lia |]. intros key. rewrite lookup_empty. simpl. lia. }
    subst sum. split.
    + pose proof (sumOfAmounts_magnitude (keyInputs rawTX)).
      rewrite numberSub_exact by (simpl; lia). lia.
    + intros key. rewrite Hmap, lookup_empty. simpl.
      destruct (inputsOf key (keyInputs rawTX)); [reflexivity |].
      f_equal.
Qed.

(** X16.  [processCoinbaseTransaction] records nothing: the output scan
    leaves its fresh transfer map empty, so for every coinbase transaction
    the accumulator is returned as it was given. *)
Theorem processCoinbaseTransaction_records_nothing
    (rawTX : RawCoinbaseTransaction) (blockTimestamp blockHeight : Z)
    (txData : TransactionData) :
  processCoinbaseTransaction rawTX blockTimestamp blockHeight txData = txData.
Proof.
  unfold processCoinbaseTransaction, processTransactionOutputs.
  now rewrite (proj2 (isEmptyMap_true ∅)).
Qed.

End ScannerLaws.

Lemma processTransactionInputs_app_witness :
  let first := [mkKeyInput 4 "img1"; mkKeyInput 9 "other"] in
  let second := [mkKeyInput 3 "img2"] in
  let r1 :=
    processTransactionInputs sampleOwner first ∅ 1 emptyTransactionData in
  let r2 := processTransactionInputs sampleOwner second r1.1.2 1 r1.2 in
  processTransactionInputs sampleOwner (first ++ second) ∅ 1
    emptyTransactionData =
    (r1.1.1 + r2.1.1, r2.1.2, r2.2).
Proof.
  apply (processTransactionInputs_app sampleOwner
           [mkKeyInput 4 "img1"; mkKeyInput 9 "other"] [mkKeyInput 3 "img2"]
           ∅ 1 emptyTransactionData).
  intros key. rewrite lookup_empty. vm_compute. discriminate.
Defined.

Lemma processTransactionInputs_Permutation_witness :
  let keyInputs := [mkKeyInput 4 "img1"; mkKeyInput 3 "img2"] in
  let keyInputs' := [mkKeyInput 3 "img2"; mkKeyInput 4 "img1"] in
  let r :=
    processTransactionInputs sampleOwner keyInputs ∅ 1 emptyTransactionData in
  let r' :=
    processTransactionInputs sampleOwner keyInputs' ∅ 1 emptyTransactionData in
  r.1.1 = r'.1.1 /\
  (forall key, r.1.2 !! key = r'.1.2 !! key) /\
  transactionsToAdd r.2 = transactionsToAdd r'.2 /\
  Permutation (keyImagesToMarkSpent r.2) (keyImagesToMarkSpent r'.2).
Proof.
  apply (processTransactionInputs_Permutation sampleOwner
           [mkKeyInput 4 "img1"; mkKeyInput 3 "img2"]
           [mkKeyInput 3 "img2"; mkKeyInput 4 "img1"]).
  - apply perm_swap.
  - intros key. rewrite lookup_empty. vm_compute. discriminate.
Defined.

Lemma processTransactionInputs_conserves_owned_value_witness :
  totalOfTransfers
    (processTransactionInputs sampleOwner (keyInputs sampleTransaction) ∅ 1
       emptyTransactionData).1.2 =
    totalOfTransfers ∅ +
    sumOfAmounts (List.filter (owned sampleOwner) (keyInputs sampleTransaction)).
Proof.
  apply (processTransactionInputs_conserves_owned_value sampleOwner
           (keyInputs sampleTransaction) ∅ 1 emptyTransactionData).
  intros key. rewrite lookup_empty. vm_compute. discriminate.
Defined.

Lemma processTransactionInputs_nonnegative_witness :
  let r :=
    processTransactionInputs sampleOwner (keyInputs sampleTransaction) ∅ 1
      emptyTransactionData in
  0 <= r.1.1 /\
  forall key amount, r.1.2 !! key = Some amount -> 0 <= amount.
Proof.
  apply (processTransactionInputs_nonnegative sampleOwner
           (keyInputs sampleTransaction) ∅ 1 emptyTransactionData).
  - intros input [<- | [<- | [<- | []]]]; discriminate.
  - intros key amount H. discriminate.
Defined.

(** Beyond the exact range the order of the inputs shows, and a second
    batch does not add up. *)
Example processTransactionInputs_order_beyond_exact_range :
  (processTransactionInputs sampleOwner
     [mkKeyInput (2 ^ 53 - 1) "a"; mkKeyInput 2 "b"; mkKeyInput 1 "c"] ∅ 1
     emptyTransactionData).1.1 = 2 ^ 53 /\
  (processTransactionInputs sampleOwner
     [mkKeyInput 1 "c"; mkKeyInput 2 "b"; mkKeyInput (2 ^ 53 - 1) "a"] ∅ 1
     emptyTransactionData).1.1 = 2 ^ 53 + 2 /\
  (processTransactionInputs sampleOwner
     ([mkKeyInput (2 ^ 53) "a"] ++ [mkKeyInput 1 "b"; mkKeyInput 1 "c"]) ∅ 1
     emptyTransactionData).1.1 = 2 ^ 53 /\
  (processTransactionInputs sampleOwner [mkKeyInput (2 ^ 53) "a"] ∅ 1
     emptyTransactionData).1.1 +
  (processTransactionInputs sampleOwner
     [mkKeyInput 1 "b"; mkKeyInput 1 "c"] ∅ 1
     emptyTransactionData).1.1 = 2 ^ 53 + 2.
Proof. vm_compute. repeat split. Qed.



(** ** When getBlocks changes the synchronizer *)

(** X17.  A call of [getBlocks] changes the synchronizer in one case only:
    it returned a non-empty batch and the start timestamp was not zero; the
    synchronizer then is the old one with start timestamp 0 and the height
    of the first block as start height.  A call that returns the empty
    batch (daemon behind, request rejected, nothing new) or throws leaves
    every field as it was, so the next call repeats the same request. *)
Theorem getBlocks_state_change (daemon : IDaemon) (this : WalletSynchronizer) :
  let r := call (getBlocks daemon) this in
  after r = this \/
  exists first rest,
    completion r = Eff.Returns (first :: rest) /\
    startTimestamp this <> 0 /\
    after r = pinned (blockHeight first) this.
Proof.
  intros r. subst r.
  destruct (getBlocks_run daemon this) as
    [Hlt | err Hge | Hge | first rest Hge Hts
     | first rest Hge Hts Hcps Hne | first rest Hge Hts Hok];
    unfold after, completion; simpl;
    try (left; reflexivity).
  right. exists first, rest. repeat split. exact Hts.
Qed.
